(** * Pipe hydraulics calculator ([flask_app.py]): a shallow embedding

    The program is one Flask view, [calculator], and one helper,
    [calculate_friction_factor].  Python's [float] is IEEE 754 binary64, which
    is what Rocq's primitive [float] is, so the arithmetic of the source is
    modelled operation for operation: every [*], [/] and comparison below
    is the binary64 one, with Python's own additions written out (a
    division by zero raises [ZeroDivisionError], [**] follows CPython's
    [float_pow], and a negative base under a fractional exponent leaves the
    floats for the complex numbers).

    What the interpreter takes from outside the repository is a parameter:
    the C library's [pow] and the arithmetic of Python's [complex]. *)

From Stdlib Require Import ZArith Floats String Ascii List Bool Lia.
From Stdlib Require Import DecimalString DecimalN.
Import ListNotations.

Set Warnings "-inexact-float".

#[local] Open Scope Z_scope.

(** ** Exceptions and the error monad *)

Inductive pyexn : Type :=
| ZeroDivisionError
| OverflowError
| ValueError
| TypeError
| BadRequestKeyError.

Inductive result (A : Type) : Type :=
| Ok (a : A)
| Raise (e : pyexn).

Arguments Ok {A} a.
Arguments Raise {A} e.

Definition bind {A B : Type} (c : result A) (k : A -> result B) : result B :=
  match c with
  | Ok a => k a
  | Raise e => Raise e
  end.

Notation "x <- c ;; k" := (bind c (fun x => k))
  (at level 61, c at next level, right associativity).
Notation "' pat <- c ;; k" := (bind c (fun x => match x with pat => k end))
  (at level 61, pat pattern, c at next level, right associativity).

(** ** Python floats *)

Module PyFloat.

#[local] Open Scope float_scope.

Definition isnan (x : float) : bool := negb (x =? x).
Definition isinf (x : float) : bool := (abs x =? infinity).

(** [x == floor(x)] and CPython's [DOUBLE_IS_ODD_INTEGER(x)], which is
    [fmod(fabs(x), 2.0) == 1.0], read off the mantissa and the exponent. *)
Definition is_integer (x : float) : bool :=
  match Prim2SF x with
  | S754_zero _ => true
  | S754_finite _ m e =>
      if (0 <=? e)%Z then true else (Z.pos m mod 2 ^ (- e) =? 0)%Z
  | _ => false
  end.

Definition is_odd_integer (x : float) : bool :=
  match Prim2SF x with
  | S754_finite _ m e =>
      if (0 <? e)%Z then false
      else ((Z.pos m mod 2 ^ (- e) =? 0) && Z.odd (Z.pos m / 2 ^ (- e)))%Z
  | _ => false
  end.

(** [copysign(0.0, x)]. *)
Definition zero_like (x : float) : float := if get_sign x then neg_zero else PrimFloat.zero.

(** [math.isclose(a, b, rel_tol=rel_tol)]. *)
Definition isclose (a b rel_tol : float) : bool :=
  (a =? b)
  || (negb (isinf a || isinf b)
      && ((abs (b - a) <=? abs (rel_tol * b))
          || (abs (b - a) <=? abs (rel_tol * a))
          || (abs (b - a) <=? 0))).

(** [float.__truediv__]: [float_div] raises before dividing. *)
Definition truediv (a b : float) : result float :=
  if b =? 0 then Raise ZeroDivisionError else Ok (a / b).

End PyFloat.

(** ** The part of the interpreter that is left abstract

    [libm_pow] is the C library's [pow], called by [float_pow] only on a
    finite positive base other than 1 and a finite non-zero exponent.

    [complex] is Python's complex type with the operations the program can
    reach: before a binary operation a float operand is converted with
    [complex_of_float]; [complex_quot] is [None] where CPython raises
    [ZeroDivisionError]; [complex_pow] reports the two faults of CPython's
    [complex_pow] ([EDOM] as [ZeroDivisionError], [ERANGE] as
    [OverflowError]); [complex_format p z] is [format(z, '.pf')]. *)

Inductive arith_fault : Type := FaultZeroDivision | FaultOverflow.

Definition fault_exn (a : arith_fault) : pyexn :=
  match a with
  | FaultZeroDivision => ZeroDivisionError
  | FaultOverflow => OverflowError
  end.

Record ComplexRuntime : Type := {
  complex : Type;
  complex_of_float : float -> complex;
  complex_prod : complex -> complex -> complex;
  complex_quot : complex -> complex -> option complex;
  complex_pow : complex -> complex -> complex + arith_fault;
  complex_format : nat -> complex -> string
}.

(** ** Numbers at run time: a float or a complex *)

Section Interpreter.

Variable libm_pow : float -> float -> float.
Variable cx : ComplexRuntime.

Inductive pynum : Type :=
| F (x : float)
| C (z : complex cx).

Definition to_complex (a : pynum) : complex cx :=
  match a with
  | F x => complex_of_float cx x
  | C z => z
  end.

Definition py_mul (a b : pynum) : pynum :=
  match a, b with
  | F x, F y => F (x * y)%float
  | _, _ => C (complex_prod cx (to_complex a) (to_complex b))
  end.

Definition py_truediv (a b : pynum) : result pynum :=
  match a, b with
  | F x, F y => r <- PyFloat.truediv x y ;; Ok (F r)
  | _, _ =>
      match complex_quot cx (to_complex a) (to_complex b) with
      | Some z => Ok (C z)
      | None => Raise ZeroDivisionError
      end
  end.

(** [a < b]: complex numbers are not ordered. *)
Definition py_lt (a b : pynum) : result bool :=
  match a, b with
  | F x, F y => Ok (x <? y)%float
  | _, _ => Raise TypeError
  end.

Definition py_complex_pow (a b : pynum) : result pynum :=
  match complex_pow cx (to_complex a) (to_complex b) with
  | inl z => Ok (C z)
  | inr flt => Raise (fault_exn flt)
  end.

(** CPython's [float_pow] ([Objects/floatobject.c]), case by case and in
    its order.  The last case is the call of the C library; its [errno] is
    read as [_Py_ADJUST_ERANGE1] leaves it on a library that, like glibc,
    reports an error only with a zero or an infinite result: a range error
    exactly when the result is infinite. *)
Definition float_pow (iv iw : float) : result pynum :=
  (if iw =? 0 then Ok (F 1)
   else if PyFloat.isnan iv then Ok (F iv)
   else if PyFloat.isnan iw then Ok (F (if iv =? 1 then 1 else iw))
   else if PyFloat.isinf iw then
     let av := abs iv in
     if av =? 1 then Ok (F 1)
     else if Bool.eqb (0 <? iw) (1 <? av) then Ok (F (abs iw))
     else Ok (F 0)
   else if PyFloat.isinf iv then
     let iw_is_odd := PyFloat.is_odd_integer iw in
     if 0 <? iw then Ok (F (if iw_is_odd then iv else abs iv))
     else Ok (F (if iw_is_odd then PyFloat.zero_like iv else 0))
   else if iv =? 0 then
     if iw <? 0 then Raise ZeroDivisionError
     else Ok (F (if PyFloat.is_odd_integer iw then iv else 0))
   else if (iv <? 0) && negb (PyFloat.is_integer iw) then
     py_complex_pow (F iv) (F iw)
   else
     let negate_result := (iv <? 0) && PyFloat.is_odd_integer iw in
     let iv := if iv <? 0 then - iv else iv in
     if iv =? 1 then Ok (F (if negate_result then -1 else 1))
     else
       let ix := libm_pow iv iw in
       if PyFloat.isinf ix then Raise OverflowError
       else Ok (F (if negate_result then - ix else ix)))%float.

Definition py_pow (a b : pynum) : result pynum :=
  match a, b with
  | F x, F y => float_pow x y
  | _, _ => py_complex_pow a b
  end.

End Interpreter.

Arguments F {cx} x.
Arguments C {cx} z.

(** ** The module's constants *)

Definition g : float := 9.81%float.
(** [rho_water = 1000] is an [int]; [float(1000)] is [1000.0]. *)
Definition rho_water : float := 1000%float.
Definition mu_water : float := 0.001%float.
(** [math.pi]. *)
Definition math_pi : float := 0x1.921fb54442d18p+1%float.

#[global] Arguments g : simpl never.
#[global] Arguments math_pi : simpl never.

Definition laminar_warning : string :=
  "Warning: Laminar flow (Re < 2100). Formula may not apply accurately.".

(** ** The computation *)

(** The five quantities the view formats, with the regime advisory. *)
Record flow (cx : ComplexRuntime) : Type := {
  flow_V : pynum cx;
  flow_Re : pynum cx;
  flow_f : pynum cx;
  flow_hf : pynum cx;
  flow_delta_P : pynum cx;
  flow_warning : string
}.

Arguments flow_V {cx} _.
Arguments flow_Re {cx} _.
Arguments flow_f {cx} _.
Arguments flow_hf {cx} _.
Arguments flow_delta_P {cx} _.
Arguments flow_warning {cx} _.

(** The five numbers read from the form. *)
Record scenario : Type := {
  in_L : float;
  in_D : float;
  in_Q : float;
  in_rho : float;
  in_mu : float
}.

Section Engine.

Variable libm_pow : float -> float -> float.
Variable cx : ComplexRuntime.

#[local] Abbreviation num := (pynum cx) (only parsing).
Notation "a ** b" := (py_pow libm_pow cx a b) (at level 30, right associativity).
Notation "a ./ b" := (py_truediv cx a b) (at level 40, left associativity).
Notation "a .* b" := (py_mul cx a b) (at level 40, left associativity).

(** [calculate_friction_factor(Re)], lines 11-16. *)
Definition calculate_friction_factor (Re : num) : result (num * string) :=
  lam <- py_lt cx Re (F 2100) ;;
  let warning := if lam : bool then laminar_warning else EmptyString in
  p <- Re ** F 0.25 ;;
  f <- F 0.3164 ./ p ;;
  Ok (f, warning).

(** Lines 29-30 of [calculator]: the area and the velocity. *)
Definition velocity (s : scenario) : result num :=
  half <- F (in_D s) ./ F 2 ;;
  sq <- half ** F 2 ;;
  let A := F math_pi .* sq in
  F (in_Q s) ./ A.

(** Line 31: the Reynolds number. *)
Definition reynolds (s : scenario) (V : num) : result num :=
  (F (in_rho s) .* V .* F (in_D s)) ./ F (in_mu s).

(** Lines 33-34: the head loss and the pressure drop. *)
Definition head_loss (s : scenario) (V f : num) : result num :=
  slope <- F (in_L s) ./ F (in_D s) ;;
  v2 <- V ** F 2 ;;
  head <- v2 ./ (F 2 .* F g) ;;
  Ok (f .* slope .* head).

Definition pressure_drop (s : scenario) (hf : num) : num :=
  F (in_rho s) .* F g .* hf.

(** Lines 29-34 of [calculator]. *)
Definition calculator_compute (s : scenario) : result (flow cx) :=
  V <- velocity s ;;
  Re <- reynolds s V ;;
  '(f, warning) <- calculate_friction_factor Re ;;
  hf <- head_loss s V f ;;
  let delta_P := pressure_drop s hf in
  Ok {| flow_V := V; flow_Re := Re; flow_f := f; flow_hf := hf;
        flow_delta_P := delta_P; flow_warning := warning |}.

End Engine.

(** ** A reference C library

    [ref_pow] gives the correctly rounded power for the two exponents the
    program uses, [2] and [0.25]; it is used to run the model on concrete
    inputs. *)

Module RefLibm.

(** The correctly rounded fourth root of a positive finite float
    [m * 2^e]: with [n = m * 2^k], [k] chosen so that [e - k] is a multiple
    of [4] and [n] has more than 220 bits, [q] is the integer part of the
    fourth root of [n], and one more bit records whether it is exact. *)
Definition root4 (x : float) : float :=
  match Prim2SF x with
  | S754_finite false m e =>
      let k := 224 + (e mod 4) in
      let n := Z.shiftl (Z.pos m) k in
      let q := Z.sqrt (Z.sqrt n) in
      let sticky := if (q * q * q * q =? n)%Z then 0 else 1 in
      SF2Prim (binary_normalize prec emax (2 * q + sticky) ((e - k) / 4 - 1) false)
  | _ => x
  end.

Definition ref_pow (x y : float) : float :=
  (if y =? 2 then x * x
   else if y =? 0.25 then root4 x
   else nan)%float.

End RefLibm.

(** ** [float(s)] and [format(x, '.pf')] *)

Module PyText.

(** A string is read as its sequence of code points, each below 256. *)

Definition code (c : ascii) : Z := Z.of_nat (nat_of_ascii c).

(** The white space [float] strips at both ends. *)
Definition is_space (c : ascii) : bool :=
  let n := code c in
  ((9 <=? n) && (n <=? 13)) || (n =? 32) || (n =? 133) || (n =? 160).

Definition is_digit (c : ascii) : bool :=
  let n := code c in (48 <=? n) && (n <=? 57).

Definition digit_value (c : ascii) : Z := code c - 48.

Definition is_char (a c : ascii) : bool := Ascii.eqb a c.

(** ASCII lower case, for the case-insensitive [inf] and [nan]. *)
Definition lower (c : ascii) : ascii :=
  let n := code c in
  if (65 <=? n) && (n <=? 90) then ascii_of_nat (Z.to_nat (n + 32)) else c.

Fixpoint lstrip (s : list ascii) : list ascii :=
  match s with
  | c :: t => if is_space c then lstrip t else s
  | [] => []
  end.

Definition strip (s : list ascii) : list ascii := rev (lstrip (rev (lstrip s))).

(** [_Py_string_to_number_with_underscores]: an underscore is dropped when
    it stands between two digits, and is an error anywhere else. *)
Fixpoint drop_underscores (prev : ascii) (s : list ascii) : option (list ascii) :=
  match s with
  | [] => if is_char "_" prev then None else Some []
  | c :: t =>
      if is_char "_" c then
        if is_digit prev then drop_underscores c t else None
      else if is_char "_" prev && negb (is_digit c) then None
      else option_map (cons c) (drop_underscores c t)
  end.

(** The digits at the head of [s]: their value after [acc], how many, and
    what follows them. *)
Fixpoint take_digits (acc : Z) (s : list ascii) : Z * nat * list ascii :=
  match s with
  | c :: t =>
      if is_digit c then
        let '(v, n, rest) := take_digits (10 * acc + digit_value c) t in
        (v, S n, rest)
      else (acc, O, s)
  | [] => (acc, O, [])
  end.

Definition take_sign (s : list ascii) : bool * list ascii :=
  match s with
  | c :: t =>
      if is_char "-" c then (true, t)
      else if is_char "+" c then (false, t)
      else (false, s)
  | [] => (false, [])
  end.

(** The binary64 nearest to [(-1)^neg * m * 10^e10], ties to even; what
    is too large becomes an infinity, as in [PyOS_string_to_double] when
    no overflow exception is asked for. *)
Definition decimal_to_float (neg : bool) (m : Z) (e10 : Z) : float :=
  match m with
  | Z.pos p =>
      if 0 <=? e10 then
        SF2Prim (binary_normalize prec emax
                   ((if neg then -1 else 1) * (Z.pos p * 10 ^ e10)) 0 neg)
      else
        SF2Prim (SFdiv prec emax (S754_finite neg p 0)
                   (S754_finite false (Z.to_pos (10 ^ (- e10))) 0))
  | _ => if neg then neg_zero else PrimFloat.zero
  end.

(** The optional exponent: [e] or [E], a sign, at least one digit. *)
Definition parse_exponent (s : list ascii) : option Z :=
  match s with
  | [] => Some 0
  | c :: t =>
      if is_char "e" (lower c) then
        let '(neg, t1) := take_sign t in
        match take_digits 0 t1 with
        | (_, O, _) => None
        | (v, S _, []) => Some (if neg then - v else v)
        | (_, S _, _ :: _) => None
        end
      else None
  end.

Definition parse_number (neg : bool) (s : list ascii) : option float :=
  let '(m1, n1, s1) := take_digits 0 s in
  let '(m, n2, s2) :=
    match s1 with
    | c :: t => if is_char "." c then take_digits m1 t else (m1, O, s1)
    | [] => (m1, O, s1)
    end in
  match (n1 + n2)%nat with
  | O => None
  | S _ =>
      match parse_exponent s2 with
      | Some e => Some (decimal_to_float neg m (e - Z.of_nat n2))
      | None => None
      end
  end.

Definition parse_inf_or_nan (neg : bool) (s : list ascii) : option float :=
  let w := string_of_list_ascii (map lower s) in
  if String.eqb w "inf" || String.eqb w "infinity" then
    Some (if neg then neg_infinity else infinity)
  else if String.eqb w "nan" then Some nan
  else None.

(** [float(s)] for a [str]; [None] is [ValueError]. *)
Definition parse_float (s : string) : option float :=
  match drop_underscores "000" (strip (list_ascii_of_string s)) with
  | None => None
  | Some body =>
      let '(neg, rest) := take_sign body in
      match parse_inf_or_nan neg rest with
      | Some x => Some x
      | None => parse_number neg rest
      end
  end.

(** *** Fixed-point formatting *)

(** [m * 2^e] rounded to an integer, ties to even. *)
Definition round_half_even (m e : Z) : Z :=
  if 0 <=? e then m * 2 ^ e
  else
    let d := 2 ^ (- e) in
    let q := m / d in
    match 2 * (m mod d) ?= d with
    | Lt => q
    | Eq => if Z.even q then q else q + 1
    | Gt => q + 1
    end.

(** The decimal digits of a natural number. *)
Definition digits_of (n : Z) : list ascii :=
  list_ascii_of_string (NilZero.string_of_uint (N.to_uint (Z.to_N n))).

Definition sign_of (negative : bool) : list ascii :=
  if negative then ["-"%char] else [].

(** The digits of [n], at least [p + 1] of them, with a point before the
    last [p]. *)
Definition fixed (p : nat) (n : Z) : list ascii :=
  let ds := digits_of n in
  let ds := repeat "0"%char (S p - length ds) ++ ds in
  match p with
  | O => ds
  | S _ => firstn (length ds - p) ds ++ "."%char :: skipn (length ds - p) ds
  end.

(** [format(x, '.pf')]: the decimal with [p] fractional digits nearest to
    [x], ties to even, and [nan], [inf], [-inf]. *)
Definition format_f (p : nat) (x : float) : string :=
  match Prim2SF x with
  | S754_nan => "nan"
  | S754_infinity s => if s then "-inf" else "inf"
  | S754_zero s => string_of_list_ascii (sign_of s ++ fixed p 0)
  | S754_finite s m e =>
      string_of_list_ascii
        (sign_of s ++ fixed p (round_half_even (Z.pos m * 10 ^ Z.of_nat p) e))
  end.

End PyText.

(** ** The view *)

(** [request.form]: the submitted fields in order; a name can occur more
    than once, and both ways of reading a field take its first value. *)
Definition form : Type := list (string * string).

Fixpoint form_get (key : string) (fm : form) : option string :=
  match fm with
  | [] => None
  | (k, v) :: rest => if String.eqb k key then Some v else form_get key rest
  end.

(** [request.form[key]]. *)
Definition form_getitem (key : string) (fm : form) : result string :=
  match form_get key fm with
  | Some v => Ok v
  | None => Raise BadRequestKeyError
  end.

(** [float(s)]. *)
Definition py_float (s : string) : result float :=
  match PyText.parse_float s with
  | Some x => Ok x
  | None => Raise ValueError
  end.

(** [float(request.form.get(key, default))], the default being a number. *)
Definition form_get_float (key : string) (default : float) (fm : form) : result float :=
  match form_get key fm with
  | Some v => py_float v
  | None => Ok default
  end.

(** Lines 23-27. *)
Definition calculator_parse (fm : form) : result scenario :=
  sL <- form_getitem "L" fm ;;
  L <- py_float sL ;;
  sD <- form_getitem "D" fm ;;
  D <- py_float sD ;;
  sQ <- form_getitem "Q" fm ;;
  Q <- py_float sQ ;;
  rho <- form_get_float "rho" rho_water fm ;;
  mu <- form_get_float "mu" mu_water fm ;;
  Ok {| in_L := L; in_D := D; in_Q := Q; in_rho := rho; in_mu := mu |}.

(** The dictionary [results]: the six display strings, or the error. *)
Inductive results : Type :=
| ResultsBlock (V Re f hf delta_P warning : string)
| ErrorBlock (error : string).

Definition parse_error_message : string := "Please enter valid numbers.".

Inductive http_method : Type := GET | POST.

(** What the template shows below the form (lines 92-108), as text. *)
Inductive element : Type :=
| AlertDanger (text : string)
| ResultLine (label value : string)
| AlertWarning (text : string).

Definition is_empty (s : string) : bool :=
  match s with
  | EmptyString => true
  | String _ _ => false
  end.

(** The result box: five lines, and the warning when there is one. *)
Definition result_box (V Re f hf delta_P warning : string) : list element :=
  [ResultLine "Velocity (V):" V;
   ResultLine "Reynolds number (Re):" Re;
   ResultLine "Friction factor (f):" f;
   ResultLine "Head loss (hf):" hf;
   ResultLine "Pressure drop (ΔP):" delta_P]
  ++ (if is_empty warning then [] else [AlertWarning warning]).

(** The template tests [results], then [results.error], then
    [results.warning]; a key the dictionary does not have is empty. *)
Definition render_results (r : option results) : list element :=
  match r with
  | None => []
  | Some (ErrorBlock error) =>
      if is_empty error
      then result_box EmptyString EmptyString EmptyString EmptyString
             EmptyString EmptyString
      else [AlertDanger error]
  | Some (ResultsBlock V Re f hf delta_P warning) =>
      result_box V Re f hf delta_P warning
  end.

Section View.

Variable libm_pow : float -> float -> float.
Variable cx : ComplexRuntime.

(** [format(a, '.pf')] for a float or a complex. *)
Definition format_num (p : nat) (a : pynum cx) : string :=
  match a with
  | F x => PyText.format_f p x
  | C z => complex_format cx p z
  end.

(** Lines 36-43: the display strings. *)
Definition calculator_format (fl : flow cx) : result results :=
  kPa <- py_truediv cx (flow_delta_P fl) (F 1000) ;;
  Ok (ResultsBlock
        (format_num 3 (flow_V fl) ++ " m/s")
        (format_num 0 (flow_Re fl))
        (format_num 4 (flow_f fl))
        (format_num 3 (flow_hf fl) ++ " m")
        (format_num 0 (flow_delta_P fl) ++ " Pa (" ++ format_num 2 kPa ++ " kPa)")
        (flow_warning fl)).

(** Lines 20-45: [results] when the view returns, or the exception that
    leaves it. *)
Definition calculator_results (method : http_method) (fm : form)
  : result (option results) :=
  match method with
  | GET => Ok None
  | POST =>
      match (s <- calculator_parse fm ;;
             fl <- calculator_compute libm_pow cx s ;;
             calculator_format fl) with
      | Ok r => Ok (Some r)
      | Raise ValueError => Ok (Some (ErrorBlock parse_error_message))
      | Raise e => Raise e
      end
  end.

(** [calculator()]: the results area of the page that is rendered. *)
Definition calculator (method : http_method) (fm : form) : result (list element) :=
  r <- calculator_results method fm ;;
  Ok (render_results r).

End View.

(** ** Predicates of the claims *)

(** A computation whose only faults are the two of the arithmetic. *)
Definition arithmetic {A : Type} (r : result A) : Prop :=
  match r with
  | Ok _ | Raise ZeroDivisionError | Raise OverflowError => True
  | Raise _ => False
  end.

Definition form_has (key : string) (fm : form) : bool :=
  match form_get key fm with
  | Some _ => true
  | None => false
  end.

(** The field is submitted and [float] rejects its value. *)
Definition field_unparsable (key : string) (fm : form) : bool :=
  match form_get key fm with
  | Some v =>
      match PyText.parse_float v with
      | Some _ => false
      | None => true
      end
  | None => false
  end.

Definition required_present (fm : form) : bool :=
  form_has "L" fm && form_has "D" fm && form_has "Q" fm.

Definition some_unparsable (fm : form) : bool :=
  existsb (fun key => field_unparsable key fm) ["L"; "D"; "Q"; "rho"; "mu"]%string.

Definition is_digits (l : list ascii) : bool := forallb PyText.is_digit l.

(** The characters of a fixed-point display. *)
Definition clean (c : ascii) : bool :=
  PyText.is_digit c || PyText.is_char "." c || PyText.is_char "-" c.

(** The number a list of digits writes, after [acc]. *)
Definition digits_value (acc : Z) (l : list ascii) : Z :=
  fold_left (fun a c => 10 * a + PyText.digit_value c) l acc.

Fixpoint has_char (c : ascii) (s : string) : bool :=
  match s with
  | EmptyString => false
  | String a t => Ascii.eqb a c || has_char c t
  end.

(** [s.removesuffix(suffix)], when [s] ends with [suffix]. *)
Fixpoint remove_suffix (suffix s : string) : option string :=
  if String.eqb s suffix then Some EmptyString
  else
    match s with
    | EmptyString => None
    | String c t => option_map (String c) (remove_suffix suffix t)
    end.

(** How [delta_P] is displayed when it is a float (line 41). *)
Definition delta_P_text (delta_P : float) : string :=
  PyText.format_f 0 delta_P ++ " Pa ("
  ++ PyText.format_f 2 (delta_P / 1000)%float ++ " kPa)".

(** The round trip of the spec: the displayed head loss is read back and
    [rho * g * hf] is computed and displayed again. *)
Definition recompute_delta_P (rho : float) (hf_text : string) : option string :=
  match remove_suffix " m" hf_text with
  | Some digits =>
      match PyText.parse_float digits with
      | Some hf => Some (delta_P_text (rho * g * hf)%float)
      | None => None
      end
  | None => None
  end.

(** ** Scenarios and submissions used as examples *)

Module Examples.

#[local] Open Scope float_scope.

(** The scenario of the form's preset values. *)
Definition preset : scenario :=
  {| in_L := 100; in_D := 0.1; in_Q := 0.01; in_rho := 1000; in_mu := 0.001 |}.

(** Scenarios on which the C library is never called: [D / 2] is [1], so
    is [V] (the flow rate is [math.pi]), and so is [Re] (the viscosity is
    twice the density). *)
Definition unit_flow (L rho : float) : scenario :=
  {| in_L := L; in_D := 2; in_Q := math_pi; in_rho := rho; in_mu := 2 * rho |}.

(** No flow in the preset pipe. *)
Definition still : scenario :=
  {| in_L := 100; in_D := 0.1; in_Q := 0; in_rho := 1000; in_mu := 0.001 |}.

(** No diameter. *)
Definition no_pipe : scenario :=
  {| in_L := 100; in_D := 0; in_Q := 0.01; in_rho := 1000; in_mu := 0.001 |}.

(** No viscosity in the preset pipe. *)
Definition inviscid : scenario :=
  {| in_L := 100; in_D := 0.1; in_Q := 0.01; in_rho := 1000; in_mu := 0 |}.

(** Positive inputs whose product [rho * V] is below the smallest float. *)
Definition vanishing : scenario :=
  {| in_L := 1; in_D := 2; in_Q := 1e-300; in_rho := 1e-300; in_mu := 1 |}.

(** No viscosity and a diameter whose square is above the largest float. *)
Definition huge_pipe : scenario :=
  {| in_L := 1; in_D := 1e200; in_Q := 1; in_rho := 1; in_mu := 0 |}.

End Examples.

Definition all_positive (s : scenario) : bool :=
  ((0 <? in_L s) && (0 <? in_D s) && (0 <? in_Q s)
   && (0 <? in_rho s) && (0 <? in_mu s))%float.

Definition some_negative (s : scenario) : bool :=
  ((in_L s <? 0) || (in_D s <? 0) || (in_Q s <? 0)
   || (in_rho s <? 0) || (in_mu s <? 0))%float.

Section ExampleFlows.

#[local] Open Scope float_scope.

(** The preset scenario under the reference library. *)
Definition preset_flow (cx : ComplexRuntime) : flow cx :=
  {| flow_V := F 1.2732395447351625;
     flow_Re := F 127323.95447351626;
     flow_f := F 0.016749773751945599;
     flow_hf := F 1.3839811639457604;
     flow_delta_P := F 13576.85521830791;
     flow_warning := EmptyString |}.

(** A pipe of negative length in a laminar unit flow. *)
Definition backwards_flow (cx : ComplexRuntime) : flow cx :=
  {| flow_V := F 1;
     flow_Re := F 1;
     flow_f := F 0.3164;
     flow_hf := F (-0.80632008154943933);
     flow_delta_P := F (-7.9100000000000001);
     flow_warning := laminar_warning |}.

(** A unit flow whose head loss is exactly half a metre. *)
Definition half_metre_form : form :=
  [("L", "62.010113780025286"); ("D", "2"); ("Q", "3.141592653589793");
   ("rho", "1"); ("mu", "2")]%string.

Definition half_metre : scenario := Examples.unit_flow 62.010113780025286 1.

(** Its flow. *)
Definition half_metre_flow (cx : ComplexRuntime) : flow cx :=
  {| flow_V := F 1;
     flow_Re := F 1;
     flow_f := F 0.3164;
     flow_hf := F 0.5;
     flow_delta_P := F 4.905;
     flow_warning := laminar_warning |}.

End ExampleFlows.

Definition preset_form : form :=
  [("L", "100"); ("D", "0.1"); ("Q", "0.01")]%string.

(** A laminar unit flow of mercury in a pipe of 100 m. *)
Definition mercury_form : form :=
  [("L", "100"); ("D", "2"); ("Q", "3.141592653589793");
   ("rho", "13600"); ("mu", "27200")]%string.

(** ** Notions of the properties of the last part *)

(** The scenario with another pipe length. *)
Definition with_L (L : float) (s : scenario) : scenario :=
  {| in_L := L; in_D := in_D s; in_Q := in_Q s; in_rho := in_rho s;
     in_mu := in_mu s |}.

(** A negative number that is not [-inf]. *)
Definition negative_finite (x : float) : bool :=
  ((x <? 0) && negb (PyFloat.isinf x))%float.

Definition is_complex {cx : ComplexRuntime} (a : pynum cx) : bool :=
  match a with
  | C _ => true
  | F _ => false
  end.

(** The flow in which nothing is a number. *)
Definition nan_flow (cx : ComplexRuntime) : flow cx :=
  {| flow_V := F nan; flow_Re := F nan; flow_f := F nan; flow_hf := F nan;
     flow_delta_P := F nan; flow_warning := EmptyString |}.

Definition nan_block : results :=
  ResultsBlock "nan m/s" "nan" "nan" "nan m" "nan Pa (nan kPa)" EmptyString.

(** The names the view reads from the form. *)
Definition read_keys : list string := ["L"; "D"; "Q"; "rho"; "mu"]%string.

Definition same_value (a b : option string) : bool :=
  match a, b with
  | Some x, Some y => String.eqb x y
  | None, None => true
  | _, _ => false
  end.

(** Two submissions in which each name the view reads has the same first
    value, or is missing in both. *)
Definition same_fields (fm fm' : form) : bool :=
  forallb (fun key => same_value (form_get key fm) (form_get key fm')) read_keys.

Definition is_result_line (e : element) : bool :=
  match e with
  | ResultLine _ _ => true
  | _ => false
  end.

(** [s] between two runs of characters. *)
Definition padded (before : list ascii) (s : string) (after : list ascii) : string :=
  string_of_list_ascii (before ++ list_ascii_of_string s ++ after).

(** A pipe in which the flow rate is not a number. *)
Definition unknown_flow_rate : scenario :=
  {| in_L := 100; in_D := 2; in_Q := nan; in_rho := 1000; in_mu := 0.001 |}.

(** The preset submission with a field the view does not read and a second
    value for [L]. *)
Definition crowded_form : form :=
  [("L", "100"); ("unit", "SI"); ("D", "0.1"); ("Q", "0.01"); ("L", "abc")]%string.

(** A submission without [L]. *)
Definition no_length_form : form :=
  [("D", "0.1"); ("Q", "0.01")]%string.

(** * Properties *)

(** ** The error monad *)

Lemma bind_ok {A B : Type} (a : A) (k : A -> result B) : bind (Ok a) k = k a.
Proof. reflexivity. Qed.

Lemma bind_raise {A B : Type} (e : pyexn) (k : A -> result B) :
  bind (Raise e) k = Raise e.
Proof. reflexivity. Qed.

(** One step of a computation whose first action is known. *)
Ltac bind_step :=
  first [ rewrite bind_ok | rewrite bind_raise ]; cbv beta iota.

(** ** The model on known values

    What the interpreter answers on these inputs is known; the model
    answers the same. *)

Section KnownValues.

Variable libm_pow : float -> float -> float.
Variable cx : ComplexRuntime.

#[local] Open Scope float_scope.

Example pow_of_zero :
  float_pow libm_pow cx 0 0.25 = Ok (F 0)
  /\ float_pow libm_pow cx (-0) 0.25 = Ok (F 0)
  /\ float_pow libm_pow cx 0 (-1) = Raise ZeroDivisionError.
Proof. repeat split; vm_compute; reflexivity. Qed.

Example pow_of_special :
  float_pow libm_pow cx infinity 0.25 = Ok (F infinity)
  /\ float_pow libm_pow cx neg_infinity 0.25 = Ok (F infinity)
  /\ float_pow libm_pow cx neg_infinity 3 = Ok (F neg_infinity)
  /\ float_pow libm_pow cx nan 0.25 = Ok (F nan)
  /\ float_pow libm_pow cx nan 0 = Ok (F 1)
  /\ float_pow libm_pow cx (-1) 2 = Ok (F 1)
  /\ float_pow libm_pow cx 1 infinity = Ok (F 1).
Proof. repeat split; vm_compute; reflexivity. Qed.

Example pow_of_negative :
  float_pow libm_pow cx (-8) 0.25 = py_complex_pow cx (F (-8)) (F 0.25)
  /\ float_pow libm_pow cx (-3) 2
     = (let ix := libm_pow 3 2 in
        if PyFloat.isinf ix then Raise OverflowError else Ok (F ix)).
Proof. split; reflexivity. Qed.

Example pow_reference :
  float_pow RefLibm.ref_pow cx 16 0.25 = Ok (F 2)
  /\ float_pow RefLibm.ref_pow cx 127323.95447351626 0.25
     = Ok (F 18.889807389980298)
  /\ float_pow RefLibm.ref_pow cx 5e199 2 = Raise OverflowError
  /\ float_pow RefLibm.ref_pow cx 5e-201 2 = Ok (F 0).
Proof. repeat split; vm_compute; reflexivity. Qed.

Example division_by_zero :
  PyFloat.truediv 1 0 = Raise ZeroDivisionError
  /\ PyFloat.truediv 1 (-0) = Raise ZeroDivisionError
  /\ PyFloat.truediv nan 0 = Raise ZeroDivisionError
  /\ PyFloat.truediv 1 infinity = Ok 0.
Proof. repeat split; vm_compute; reflexivity. Qed.

End KnownValues.

Example float_of_text :
  map PyText.parse_float
    ["1.5"; " 12 "; "1_000"; ".5"; "1."; "+.5e-3"; "-0"; "1e400";
     "Infinity"; "-INF"; "NaN";
     ""; " "; "."; "abc"; "1e"; "1__0"; "_1"; "1 2"; "0x10"; "infin"]%string
  = [Some 1.5; Some 12; Some 1000; Some 0.5; Some 1; Some 0.0005;
     Some (-0); Some infinity; Some infinity; Some neg_infinity; Some nan;
     None; None; None; None; None; None; None; None; None; None]%float.
Proof. vm_compute. reflexivity. Qed.

Example text_of_float :
  map (PyText.format_f 0) [0.5; 1.5; 2.5; -0.4; 127323.95447351626; 1e22]%float
  = ["0"; "2"; "2"; "-0"; "127324"; "10000000000000000000000"]%string
  /\ map (PyText.format_f 3)
       [1.2732395447351625; 0.0005; 0.0015; -0.0001; 0.125; nan;
        neg_infinity]%float
     = ["1.273"; "0.001"; "0.002"; "-0.000"; "0.125"; "nan"; "-inf"]%string
  /\ map (PyText.format_f 2) [13.57685521830791; 0.125; 0.375]%float
     = ["13.58"; "0.12"; "0.38"]%string.
Proof. repeat split; vm_compute; reflexivity. Qed.

(** ** Binary64 facts used below *)

Module FloatFacts.

#[local] Open Scope float_scope.

Lemma Prim2SF_zero : Prim2SF 0 = S754_zero false.
Proof. reflexivity. Qed.

Lemma Prim2SF_two : Prim2SF 2 = S754_finite false 4503599627370496 (-51).
Proof. reflexivity. Qed.

Lemma Prim2SF_infinity : Prim2SF infinity = S754_infinity false.
Proof. reflexivity. Qed.

(** A float that compares equal to [0] is one of the two zeros. *)
Lemma eqb_zero_inv (x : float) :
  (x =? 0) = true -> exists s, Prim2SF x = S754_zero s.
Proof.
  rewrite FloatAxioms.eqb_spec, Prim2SF_zero.
  destruct (Prim2SF x) as [s | s | | s m e]; try destruct s; cbn; try discriminate;
    eauto.
Qed.

Lemma zero_not_nan (x : float) : (x =? 0) = true -> PyFloat.isnan x = false.
Proof.
  intros H. destruct (eqb_zero_inv x H) as [s E].
  unfold PyFloat.isnan. rewrite FloatAxioms.eqb_spec, E. reflexivity.
Qed.

Lemma zero_not_inf (x : float) : (x =? 0) = true -> PyFloat.isinf x = false.
Proof.
  intros H. destruct (eqb_zero_inv x H) as [s E].
  unfold PyFloat.isinf.
  rewrite FloatAxioms.eqb_spec, abs_spec, E, Prim2SF_infinity. reflexivity.
Qed.

(** Half of a zero is a zero. *)
Lemma half_of_zero (x : float) : (x =? 0) = true -> (x / 2 =? 0) = true.
Proof.
  intros H. destruct (eqb_zero_inv x H) as [s E].
  rewrite FloatAxioms.eqb_spec, div_spec, E, Prim2SF_two, Prim2SF_zero.
  reflexivity.
Qed.

(** [x < y] excludes [y <= x]; the comparisons are those of the format, so
    this also holds when one side is not a number. *)
Lemma SFcompare_flip (a b : spec_float) :
  SFcompare b a = option_map CompOpp (SFcompare a b).
Proof.
  destruct a as [sa | sa | | sa ma ea], b as [sb | sb | | sb mb eb];
    try destruct sa; try destruct sb; try reflexivity;
    unfold SFcompare, option_map; f_equal;
    change (Pos.compare_cont Eq mb ma) with (Pos.compare mb ma);
    change (Pos.compare_cont Eq ma mb) with (Pos.compare ma mb);
    rewrite (Z.compare_antisym ea eb), (Pos.compare_antisym ma mb);
    destruct (ea ?= eb)%Z; cbn; try reflexivity.
Qed.

Lemma ltb_not_leb (x y : float) : (x <? y) = true -> (y <=? x) = false.
Proof.
  rewrite ltb_spec, leb_spec. unfold SFltb, SFleb.
  rewrite (SFcompare_flip (Prim2SF x) (Prim2SF y)).
  destruct (SFcompare (Prim2SF x) (Prim2SF y)) as [[ | | ] | ]; cbn;
    congruence.
Qed.

Lemma leb_not_ltb (x y : float) : (y <=? x) = true -> (x <? y) = false.
Proof.
  intros H. destruct (x <? y) eqn:E; [ | reflexivity ].
  apply ltb_not_leb in E. congruence.
Qed.

End FloatFacts.

(** ** The interpreter on the program's two exponents *)

Section InterpreterFacts.

Variable libm_pow : float -> float -> float.
Variable cx : ComplexRuntime.

#[local] Open Scope float_scope.

(** [x ** 2]: the exponent is an even integer, so the result is a float
    whatever the sign of [x]. *)
Lemma float_pow_2 (iv : float) :
  float_pow libm_pow cx iv 2 =
  if PyFloat.isnan iv then Ok (F iv)
  else if PyFloat.isinf iv then Ok (F (abs iv))
  else if iv =? 0 then Ok (F 0)
  else
    let av := if iv <? 0 then - iv else iv in
    if av =? 1 then Ok (F 1)
    else
      let ix := libm_pow av 2 in
      if PyFloat.isinf ix then Raise OverflowError else Ok (F ix).
Proof.
  unfold float_pow.
  destruct (PyFloat.isnan iv), (PyFloat.isinf iv), (iv =? 0), (iv <? 0);
    reflexivity.
Qed.

(** [x ** 0.25]: a negative finite base leaves the floats. *)
Lemma float_pow_quarter (iv : float) :
  float_pow libm_pow cx iv 0.25 =
  if PyFloat.isnan iv then Ok (F iv)
  else if PyFloat.isinf iv then Ok (F (abs iv))
  else if iv =? 0 then Ok (F 0)
  else if iv <? 0 then py_complex_pow cx (F iv) (F 0.25)
  else if iv =? 1 then Ok (F 1)
  else
    let ix := libm_pow iv 0.25 in
    if PyFloat.isinf ix then Raise OverflowError else Ok (F ix).
Proof.
  unfold float_pow.
  destruct (PyFloat.isnan iv), (PyFloat.isinf iv), (iv =? 0), (iv <? 0);
    reflexivity.
Qed.

Lemma float_pow_2_zero (iv : float) :
  (iv =? 0) = true -> float_pow libm_pow cx iv 2 = Ok (F 0).
Proof.
  intros H. rewrite float_pow_2.
  rewrite (FloatFacts.zero_not_nan iv H), (FloatFacts.zero_not_inf iv H), H.
  reflexivity.
Qed.

Lemma float_pow_quarter_zero (iv : float) :
  (iv =? 0) = true -> float_pow libm_pow cx iv 0.25 = Ok (F 0).
Proof.
  intros H. rewrite float_pow_quarter.
  rewrite (FloatFacts.zero_not_nan iv H), (FloatFacts.zero_not_inf iv H), H.
  reflexivity.
Qed.

(** A square is a float or an error, never a complex number. *)
Lemma float_pow_2_float (iv : float) (r : pynum cx) :
  float_pow libm_pow cx iv 2 = Ok r -> exists x, r = F x.
Proof.
  rewrite float_pow_2. cbv zeta.
  repeat match goal with
         | |- context [if ?b then _ else _] => destruct b
         end; intros H; inversion H; eauto.
Qed.

Lemma arithmetic_bind {A B : Type} (c : result A) (k : A -> result B) :
  arithmetic c -> (forall a, c = Ok a -> arithmetic (k a)) -> arithmetic (bind c k).
Proof.
  destruct c as [a | e]; cbn; intros Hc Hk; [ apply Hk; reflexivity | exact Hc ].
Qed.

Lemma arithmetic_truediv (a b : pynum cx) : arithmetic (py_truediv cx a b).
Proof.
  destruct a, b; cbn; unfold PyFloat.truediv;
    repeat match goal with
           | |- context [if ?c then _ else _] => destruct c
           | |- context [match ?c with Some _ => _ | None => _ end] => destruct c
           end; exact I.
Qed.

Lemma arithmetic_complex_pow (a b : pynum cx) : arithmetic (py_complex_pow cx a b).
Proof.
  unfold py_complex_pow.
  destruct (complex_pow cx (to_complex cx a) (to_complex cx b)) as [z | [ | ]];
    exact I.
Qed.

Lemma arithmetic_float_pow (iv iw : float) : arithmetic (float_pow libm_pow cx iv iw).
Proof.
  unfold float_pow. cbv zeta.
  repeat match goal with
         | |- arithmetic (py_complex_pow _ _ _) => apply arithmetic_complex_pow
         | |- arithmetic (if ?c then _ else _) => destruct c
         | |- arithmetic (Ok _) => exact I
         | |- arithmetic (Raise _) => exact I
         end.
Qed.

Lemma arithmetic_pow (a b : pynum cx) : arithmetic (py_pow libm_pow cx a b).
Proof.
  destruct a, b; cbn;
    first [ apply arithmetic_float_pow | apply arithmetic_complex_pow ].
Qed.

End InterpreterFacts.

(** ** The computation, step by step *)

Section EngineFacts.

Variable libm_pow : float -> float -> float.
Variable cx : ComplexRuntime.

#[local] Open Scope float_scope.

#[local] Abbreviation pow := (float_pow libm_pow cx) (only parsing).

(** The velocity in terms of floats: the square is taken of [D / 2], the
    area is [math.pi] times it, and the division raises on a zero area. *)
Lemma velocity_eq (s : scenario) :
  velocity libm_pow cx s =
  (sq <- pow (in_D s / 2) 2 ;; py_truediv cx (F (in_Q s)) (py_mul cx (F math_pi) sq)).
Proof. reflexivity. Qed.

Lemma velocity_inv (s : scenario) (V : pynum cx) :
  velocity libm_pow cx s = Ok V ->
  exists sq,
    pow (in_D s / 2) 2 = Ok (F sq)
    /\ (math_pi * sq =? 0) = false
    /\ V = F (in_Q s / (math_pi * sq)).
Proof.
  rewrite velocity_eq.
  destruct (pow (in_D s / 2) 2) as [r | e] eqn:E; bind_step; [ | discriminate ].
  destruct (float_pow_2_float _ _ _ _ E) as [sq ->].
  unfold py_mul, py_truediv, PyFloat.truediv.
  destruct (math_pi * sq =? 0) eqn:Z; bind_step; [ discriminate | ].
  intros H. inversion H. eauto.
Qed.

Lemma reynolds_float (s : scenario) (v : float) :
  reynolds cx s (F v) =
  if in_mu s =? 0 then Raise ZeroDivisionError
  else Ok (F (in_rho s * v * in_D s / in_mu s)).
Proof.
  unfold reynolds, py_truediv, py_mul, PyFloat.truediv.
  destruct (in_mu s =? 0); reflexivity.
Qed.

Lemma friction_factor_float (re : float) :
  calculate_friction_factor libm_pow cx (F re) =
  (p <- pow re 0.25 ;;
   f <- py_truediv cx (F 0.3164) p ;;
   Ok (f, if re <? 2100 then laminar_warning else EmptyString)).
Proof. reflexivity. Qed.

Lemma head_loss_float (s : scenario) (v : float) (f : pynum cx) :
  head_loss libm_pow cx s (F v) f =
  if in_D s =? 0 then Raise ZeroDivisionError
  else
    (v2 <- pow v 2 ;;
     head <- py_truediv cx v2 (F (2 * g)) ;;
     Ok (py_mul cx (py_mul cx f (F (in_L s / in_D s))) head)).
Proof.
  unfold head_loss, py_truediv at 1, PyFloat.truediv.
  destruct (in_D s =? 0); reflexivity.
Qed.

Lemma truediv_2g (v2 : float) :
  py_truediv cx (F v2) (F (2 * g)) = Ok (F (v2 / (2 * g))).
Proof. reflexivity. Qed.

(** Everything a completed computation went through. *)
Lemma calculator_compute_inv (s : scenario) (fl : flow cx) :
  calculator_compute libm_pow cx s = Ok fl ->
  exists sq v re p v2,
    pow (in_D s / 2) 2 = Ok (F sq)
    /\ (math_pi * sq =? 0) = false
    /\ v = in_Q s / (math_pi * sq)
    /\ flow_V fl = F v
    /\ (in_mu s =? 0) = false
    /\ re = in_rho s * v * in_D s / in_mu s
    /\ flow_Re fl = F re
    /\ flow_warning fl = (if re <? 2100 then laminar_warning else EmptyString)
    /\ pow re 0.25 = Ok p
    /\ py_truediv cx (F 0.3164) p = Ok (flow_f fl)
    /\ (in_D s =? 0) = false
    /\ pow v 2 = Ok (F v2)
    /\ flow_hf fl =
         py_mul cx (py_mul cx (flow_f fl) (F (in_L s / in_D s))) (F (v2 / (2 * g)))
    /\ flow_delta_P fl = py_mul cx (F (in_rho s * g)) (flow_hf fl).
Proof.
  unfold calculator_compute.
  destruct (velocity libm_pow cx s) as [V | e] eqn:EV; bind_step; [ | discriminate ].
  destruct (velocity_inv s V EV) as (sq & Esq & Hsq & ->).
  rewrite reynolds_float.
  destruct (in_mu s =? 0) eqn:Emu; bind_step; [ discriminate | ].
  rewrite friction_factor_float.
  destruct (pow (in_rho s * (in_Q s / (math_pi * sq)) * in_D s / in_mu s) 0.25)
    as [p | e] eqn:Ep; bind_step; [ | bind_step; discriminate ].
  destruct (py_truediv cx (F 0.3164) p) as [f | e] eqn:Ef; bind_step;
    [ | bind_step; discriminate ].
  bind_step.
  rewrite head_loss_float.
  destruct (in_D s =? 0) eqn:ED; [ bind_step; discriminate | ].
  destruct (pow (in_Q s / (math_pi * sq)) 2) as [r2 | e] eqn:E2; bind_step;
    [ | bind_step; discriminate ].
  destruct (float_pow_2_float _ _ _ _ E2) as [v2 ->].
  rewrite truediv_2g. do 2 bind_step.
  intros H. inversion H; subst; clear H. unfold pressure_drop.
  exists sq, (in_Q s / (math_pi * sq)),
    (in_rho s * (in_Q s / (math_pi * sq)) * in_D s / in_mu s), p, v2.
  repeat split; auto.
Qed.

(** The computation raises nothing but [ZeroDivisionError] and
    [OverflowError]. *)
Lemma calculator_compute_arithmetic (s : scenario) :
  arithmetic (calculator_compute libm_pow cx s).
Proof.
  unfold calculator_compute.
  destruct (velocity libm_pow cx s) as [V | e] eqn:EV.
  - destruct (velocity_inv s V EV) as (sq & _ & _ & ->). bind_step.
    rewrite reynolds_float.
    destruct (in_mu s =? 0); bind_step; [ exact I | ].
    rewrite friction_factor_float.
    apply arithmetic_bind; [ | intros [f w] _ ].
    { apply arithmetic_bind; [ apply arithmetic_float_pow | intros p _ ].
      apply arithmetic_bind; [ apply arithmetic_truediv | intros f _; exact I ]. }
    rewrite head_loss_float.
    destruct (in_D s =? 0); [ exact I | ].
    apply arithmetic_bind; [ | intros hf _; exact I ].
    apply arithmetic_bind; [ apply arithmetic_float_pow | intros v2 _ ].
    apply arithmetic_bind; [ apply arithmetic_truediv | intros h _; exact I ].
  - bind_step. rewrite velocity_eq in EV.
    assert (A : arithmetic (Raise (A := pynum cx) e)).
    { rewrite <- EV.
      apply arithmetic_bind; [ apply arithmetic_float_pow | intros a _ ].
      apply arithmetic_truediv. }
    destruct e; cbn in A; try contradiction; exact I.
Qed.

End EngineFacts.

(** ** Claims on the computation *)

Section EngineClaims.

Variable libm_pow : float -> float -> float.
Variable cx : ComplexRuntime.

#[local] Open Scope float_scope.

#[local] Abbreviation pow := (float_pow libm_pow cx) (only parsing).
#[local] Abbreviation compute := (calculator_compute libm_pow cx) (only parsing).

(** C1, as amended: whenever the computation completes, its values are
    those of the formulas, taken in the order of the source and each
    operation being the binary64 one: [A = pi * (D/2)**2], [V = Q / A],
    [Re = rho * V * D / mu], [f = 0.3164 / Re**0.25],
    [hf = f * (L/D) * (V**2 / (2*g))] with [g = 9.81], and
    [delta_P = rho * g * hf].  In particular [V] is the float
    [Q / (pi * (D/2)**2)] itself, so that [math.isclose] accepts the two
    at the relative tolerance [1e-9] whenever [V] is a number. *)
Theorem C1_formulas_on_completion (s : scenario) (fl : flow cx) :
  compute s = Ok fl ->
  exists sq A V Re p v2,
    pow (in_D s / 2) 2 = Ok (F sq)
    /\ A = math_pi * sq
    /\ V = in_Q s / A
    /\ flow_V fl = F V
    /\ Re = in_rho s * V * in_D s / in_mu s
    /\ flow_Re fl = F Re
    /\ pow Re 0.25 = Ok p
    /\ py_truediv cx (F 0.3164) p = Ok (flow_f fl)
    /\ pow V 2 = Ok (F v2)
    /\ flow_hf fl =
         py_mul cx (py_mul cx (flow_f fl) (F (in_L s / in_D s))) (F (v2 / (2 * g)))
    /\ flow_delta_P fl = py_mul cx (py_mul cx (F (in_rho s)) (F g)) (flow_hf fl)
    /\ g = 9.81
    /\ (PyFloat.isnan V = false ->
        PyFloat.isclose V (in_Q s / (math_pi * sq)) 1e-9 = true).
Proof.
  intros H.
  destruct (calculator_compute_inv libm_pow cx s fl H)
    as (sq & v & re & p & v2 & H1 & _ & H3 & H4 & _ & H6 & H7 & _ & H9 & H10
        & _ & H12 & H13 & H14).
  exists sq, (math_pi * sq), v, re, p, v2.
  repeat split; auto.
  intros N. rewrite <- H3. unfold PyFloat.isclose.
  unfold PyFloat.isnan in N. apply negb_false_iff in N. rewrite N. reflexivity.
Qed.

(** C2: on every computed result the warning is the laminar text exactly
    when [Re < 2100] and is empty otherwise, in particular when
    [Re >= 2100]; the page shows the warning exactly when it is the
    laminar text. *)
Theorem C2_warning_iff_laminar (s : scenario) (fl : flow cx) :
  compute s = Ok fl ->
  exists re,
    flow_Re fl = F re
    /\ (flow_warning fl = laminar_warning <-> (re <? 2100) = true)
    /\ ((re <? 2100) = false -> flow_warning fl = EmptyString)
    /\ ((2100 <=? re) = true -> flow_warning fl = EmptyString)
    /\ (forall V Re f hf delta_P,
          In (AlertWarning laminar_warning)
             (render_results
                (Some (ResultsBlock V Re f hf delta_P (flow_warning fl))))
          <-> (re <? 2100) = true).
Proof.
  intros H.
  destruct (calculator_compute_inv libm_pow cx s fl H)
    as (sq & v & re & p & v2 & _ & _ & _ & _ & _ & _ & HRe & Hw & _).
  exists re. rewrite Hw.
  assert (R : forall V0 Re0 f0 hf0 dP0 w,
             In (AlertWarning laminar_warning)
                (render_results (Some (ResultsBlock V0 Re0 f0 hf0 dP0 w)))
             <-> w = laminar_warning).
  { intros V0 Re0 f0 hf0 dP0 w. unfold render_results. split.
    - intros HIn. apply in_app_or in HIn. destruct HIn as [HIn | HIn].
      + cbn in HIn.
        repeat (destruct HIn as [HIn | HIn]; [ discriminate | ]). contradiction.
      + destruct (is_empty w); cbn in HIn; [ contradiction | ].
        destruct HIn as [HIn | []]. congruence.
    - intros ->. apply in_or_app. right. cbn. auto. }
  split; [ exact HRe | ].
  split; [ | split; [ | split ] ].
  - destruct (re <? 2100); split; auto; discriminate.
  - intros E. rewrite E. reflexivity.
  - intros L. rewrite (FloatFacts.leb_not_ltb _ _ L). reflexivity.
  - intros V0 Re0 f0 hf0 dP0. rewrite R.
    destruct (re <? 2100); split; auto; discriminate.
Qed.

(** C3, as amended: a zero diameter and a zero Reynolds number make the
    computation fail with [ZeroDivisionError]; a zero viscosity makes it
    fail too, with [ZeroDivisionError] unless the square [(D/2)**2] has
    overflowed before, which is an [OverflowError]; in the three cases no
    result is produced. *)
Theorem C3_degenerate_inputs_fail (s : scenario) :
  ((in_D s =? 0) = true -> compute s = Raise ZeroDivisionError)
  /\ ((in_mu s =? 0) = true ->
      compute s = Raise ZeroDivisionError
      \/ (pow (in_D s / 2) 2 = Raise OverflowError
          /\ compute s = Raise OverflowError))
  /\ (forall V re,
        velocity libm_pow cx s = Ok V ->
        reynolds cx s V = Ok (F re) ->
        (re =? 0) = true ->
        compute s = Raise ZeroDivisionError).
Proof.
  split; [ | split ].
  - intros HD. unfold calculator_compute. rewrite velocity_eq.
    rewrite (float_pow_2_zero libm_pow cx _ (FloatFacts.half_of_zero _ HD)).
    reflexivity.
  - intros Hmu. unfold calculator_compute.
    destruct (velocity libm_pow cx s) as [V | e] eqn:EV.
    + destruct (velocity_inv libm_pow cx s V EV) as (sq & _ & _ & ->).
      bind_step. rewrite reynolds_float, Hmu. left. reflexivity.
    + bind_step. rewrite velocity_eq in EV.
      destruct (pow (in_D s / 2) 2) as [r | e'] eqn:E.
      * destruct (float_pow_2_float _ _ _ _ E) as [sq ->].
        revert EV. bind_step. unfold py_mul, py_truediv, PyFloat.truediv.
        destruct (math_pi * sq =? 0); bind_step; intros EV; inversion EV.
        left. reflexivity.
      * revert EV. bind_step. intros EV. inversion EV; subst e'.
        revert E. rewrite float_pow_2. cbv zeta.
        repeat match goal with
               | |- context [if ?b then _ else _] => destruct b
               end; intros E; inversion E. right. split; reflexivity.
  - intros V re EV ERe Hre. unfold calculator_compute.
    rewrite EV. bind_step. rewrite ERe. bind_step.
    rewrite friction_factor_float.
    rewrite (float_pow_quarter_zero libm_pow cx re Hre). reflexivity.
Qed.

(** C4, as amended: the computation examines no sign and raises no domain
    error; on every scenario, one with a negative field included, it
    returns a result or fails with [ZeroDivisionError] or
    [OverflowError]. *)
Theorem C4_no_domain_error (s : scenario) :
  (exists fl, compute s = Ok fl)
  \/ compute s = Raise ZeroDivisionError
  \/ compute s = Raise OverflowError.
Proof.
  pose proof (calculator_compute_arithmetic libm_pow cx s) as A.
  destruct (compute s) as [fl | e]; [ left; eauto | right ].
  destruct e; cbn in A; try contradiction; auto.
Qed.

End EngineClaims.

(** ** The claims on the computation at concrete scenarios *)

Section EngineRuns.

#[local] Open Scope float_scope.

Lemma preset_run (cx : ComplexRuntime) :
  calculator_compute RefLibm.ref_pow cx Examples.preset = Ok (preset_flow cx).
Proof. vm_compute. reflexivity. Qed.

Lemma backwards_run (pw : float -> float -> float) (cx : ComplexRuntime) :
  calculator_compute pw cx (Examples.unit_flow (-100) 1) = Ok (backwards_flow cx).
Proof. vm_compute. reflexivity. Qed.

Lemma half_metre_run (pw : float -> float -> float) (cx : ComplexRuntime) :
  calculator_compute pw cx half_metre = Ok (half_metre_flow cx).
Proof. vm_compute. reflexivity. Qed.

(** The spec's example of a zero Reynolds number: no flow, positive
    diameter. *)
Example still_run (cx : ComplexRuntime) :
  calculator_compute RefLibm.ref_pow cx Examples.still = Raise ZeroDivisionError.
Proof. vm_compute. reflexivity. Qed.

End EngineRuns.

(** C1, counterexample: all five inputs are positive, yet the product
    [rho * V] rounds to zero, so does [Re], and the friction factor is a
    division by zero: no [f], [hf] or [delta_P] is computed.  The C library
    is not called on this scenario. *)
Lemma C1_positive_input_without_result :
  all_positive Examples.vanishing = true
  /\ forall pw cx, calculator_compute pw cx Examples.vanishing = Raise ZeroDivisionError.
Proof. split; [ reflexivity | intros pw cx; vm_compute; reflexivity ]. Qed.

(** C1 at the preset scenario, under the reference library. *)
Lemma C1_formulas_witness :
  (forall cx,
     calculator_compute RefLibm.ref_pow cx Examples.preset = Ok (preset_flow cx))
  /\ (forall cx, exists sq A V Re p v2,
        float_pow RefLibm.ref_pow cx (in_D Examples.preset / 2) 2 = Ok (F sq)
        /\ A = (math_pi * sq)%float
        /\ V = (in_Q Examples.preset / A)%float
        /\ flow_V (preset_flow cx) = F V
        /\ Re = (in_rho Examples.preset * V * in_D Examples.preset
                 / in_mu Examples.preset)%float
        /\ flow_Re (preset_flow cx) = F Re
        /\ float_pow RefLibm.ref_pow cx Re 0.25 = Ok p
        /\ py_truediv cx (F 0.3164) p = Ok (flow_f (preset_flow cx))
        /\ float_pow RefLibm.ref_pow cx V 2 = Ok (F v2)
        /\ flow_hf (preset_flow cx) =
             py_mul cx
               (py_mul cx (flow_f (preset_flow cx))
                  (F (in_L Examples.preset / in_D Examples.preset)))
               (F (v2 / (2 * g)))
        /\ flow_delta_P (preset_flow cx) =
             py_mul cx (py_mul cx (F (in_rho Examples.preset)) (F g))
               (flow_hf (preset_flow cx))
        /\ g = 9.81%float
        /\ (PyFloat.isnan V = false ->
            PyFloat.isclose V (in_Q Examples.preset / (math_pi * sq)) 1e-9 = true)).
Proof.
  split; [ exact preset_run | ].
  intros cx.
  exact (C1_formulas_on_completion RefLibm.ref_pow cx Examples.preset
           (preset_flow cx) (preset_run cx)).
Defined.

(** C2 at a laminar flow: [Re] is [1] and the warning is displayed. *)
Lemma C2_warning_witness :
  (forall pw cx, calculator_compute pw cx half_metre = Ok (half_metre_flow cx))
  /\ (forall (pw : float -> float -> float) cx, exists re,
        flow_Re (half_metre_flow cx) = F re
        /\ (flow_warning (half_metre_flow cx) = laminar_warning
            <-> (re <? 2100)%float = true)
        /\ ((re <? 2100)%float = false ->
            flow_warning (half_metre_flow cx) = EmptyString)
        /\ ((2100 <=? re)%float = true ->
            flow_warning (half_metre_flow cx) = EmptyString)
        /\ (forall V Re f hf delta_P,
              In (AlertWarning laminar_warning)
                 (render_results
                    (Some (ResultsBlock V Re f hf delta_P
                             (flow_warning (half_metre_flow cx)))))
              <-> (re <? 2100)%float = true)).
Proof.
  split; [ exact half_metre_run | ].
  intros pw cx.
  exact (C2_warning_iff_laminar pw cx half_metre (half_metre_flow cx)
           (half_metre_run pw cx)).
Defined.

(** C3, counterexample: with no viscosity and a diameter of [1e200] the
    square [(D/2)**2] is above the largest float, and the computation fails
    with [OverflowError] before it reaches the division by [mu]. *)
Lemma C3_zero_viscosity_overflow :
  (in_mu Examples.huge_pipe =? 0)%float = true
  /\ forall cx,
       calculator_compute RefLibm.ref_pow cx Examples.huge_pipe = Raise OverflowError.
Proof. split; [ reflexivity | intros cx; vm_compute; reflexivity ]. Qed.

(** C3 at a pipe without diameter, at a fluid without viscosity and at a
    fluid at rest. *)
Lemma C3_degenerate_witness :
  (forall pw cx, calculator_compute pw cx Examples.no_pipe = Raise ZeroDivisionError)
  /\ (forall cx,
        calculator_compute RefLibm.ref_pow cx Examples.inviscid
        = Raise ZeroDivisionError
        \/ (float_pow RefLibm.ref_pow cx (in_D Examples.inviscid / 2) 2
            = Raise OverflowError
            /\ calculator_compute RefLibm.ref_pow cx Examples.inviscid
               = Raise OverflowError))
  /\ (forall cx,
        calculator_compute RefLibm.ref_pow cx Examples.still = Raise ZeroDivisionError).
Proof.
  split; [ | split ].
  - intros pw cx.
    exact (proj1 (C3_degenerate_inputs_fail pw cx Examples.no_pipe) eq_refl).
  - intros cx.
    exact (proj1 (proj2 (C3_degenerate_inputs_fail RefLibm.ref_pow cx
                           Examples.inviscid)) eq_refl).
  - intros cx.
    refine (proj2 (proj2 (C3_degenerate_inputs_fail RefLibm.ref_pow cx
                            Examples.still)) (F 0%float) 0%float _ _ eq_refl).
    + vm_compute. reflexivity.
    + vm_compute. reflexivity.
Defined.

(** C4, counterexample: a pipe of length [-100] m is computed like any
    other; the head loss and the pressure drop come out negative and are
    displayed.  The C library is not called on this scenario. *)
Lemma C4_negative_length_yields_results :
  some_negative (Examples.unit_flow (-100) 1) = true
  /\ (forall pw cx,
        calculator_compute pw cx (Examples.unit_flow (-100) 1)
        = Ok (backwards_flow cx))
  /\ (forall pw cx,
        calculator pw cx POST
          [("L", "-100"); ("D", "2"); ("Q", "3.141592653589793");
           ("rho", "1"); ("mu", "2")]%string
        = Ok [ResultLine "Velocity (V):" "1.000 m/s";
              ResultLine "Reynolds number (Re):" "1";
              ResultLine "Friction factor (f):" "0.3164";
              ResultLine "Head loss (hf):" "-0.806 m";
              ResultLine "Pressure drop (ΔP):" "-8 Pa (-0.01 kPa)";
              AlertWarning laminar_warning]%string).
Proof.
  split; [ reflexivity | split ].
  - exact backwards_run.
  - intros pw cx. vm_compute. reflexivity.
Qed.

(** ** The view: reading the form *)

Section ViewFacts.

Variable libm_pow : float -> float -> float.
Variable cx : ComplexRuntime.

Lemma calculator_parse_value_error (fm : form) :
  required_present fm = true ->
  some_unparsable fm = true ->
  calculator_parse fm = Raise ValueError.
Proof.
  unfold required_present, some_unparsable, existsb, field_unparsable, form_has,
    calculator_parse, form_getitem, form_get_float, py_float.
  destruct (form_get "L" fm) as [vL | ]; [ | discriminate ].
  destruct (form_get "D" fm) as [vD | ]; [ | discriminate ].
  destruct (form_get "Q" fm) as [vQ | ]; [ | discriminate ].
  intros _. bind_step.
  destruct (PyText.parse_float vL); repeat bind_step; [ | intros; reflexivity ].
  destruct (PyText.parse_float vD); repeat bind_step; [ | intros; reflexivity ].
  destruct (PyText.parse_float vQ); repeat bind_step; [ | intros; reflexivity ].
  destruct (form_get "rho" fm) as [vr | ];
    [ destruct (PyText.parse_float vr) | ]; repeat bind_step;
    try (intros; reflexivity);
    (destruct (form_get "mu" fm) as [vm | ];
     [ destruct (PyText.parse_float vm) | ]; repeat bind_step;
     try (intros; reflexivity); intros H; simpl in H; discriminate H).
Qed.

(** What the view answers when reading the form raises [ValueError]. *)
Lemma calculator_on_value_error (fm : form) :
  calculator_parse fm = Raise ValueError ->
  calculator_results libm_pow cx POST fm = Ok (Some (ErrorBlock parse_error_message))
  /\ calculator libm_pow cx POST fm = Ok [AlertDanger parse_error_message].
Proof.
  intros H. unfold calculator, calculator_results. rewrite H.
  split; reflexivity.
Qed.

(** A missing required field leaves the view before any number is read
    from a later field. *)
Lemma calculator_parse_missing (fm : form) :
  required_present fm = false ->
  calculator_parse fm = Raise BadRequestKeyError
  \/ calculator_parse fm = Raise ValueError.
Proof.
  unfold required_present, form_has, calculator_parse, form_getitem, py_float.
  destruct (form_get "L" fm) as [vL | ]; [ | left; reflexivity ].
  bind_step.
  destruct (PyText.parse_float vL); bind_step; [ | right; reflexivity ].
  destruct (form_get "D" fm) as [vD | ]; [ | left; reflexivity ].
  bind_step.
  destruct (PyText.parse_float vD); bind_step; [ | right; reflexivity ].
  destruct (form_get "Q" fm) as [vQ | ]; [ discriminate | left; reflexivity ].
Qed.

(** What a form that reads well contains. *)
Lemma calculator_parse_inv (fm : form) (s : scenario) :
  calculator_parse fm = Ok s ->
  exists vL vD vQ,
    form_get "L" fm = Some vL /\ PyText.parse_float vL = Some (in_L s)
    /\ form_get "D" fm = Some vD /\ PyText.parse_float vD = Some (in_D s)
    /\ form_get "Q" fm = Some vQ /\ PyText.parse_float vQ = Some (in_Q s)
    /\ form_get_float "rho" rho_water fm = Ok (in_rho s)
    /\ form_get_float "mu" mu_water fm = Ok (in_mu s).
Proof.
  unfold calculator_parse, form_getitem, py_float.
  destruct (form_get "L" fm) as [vL | ] eqn:GL; bind_step; [ | discriminate ].
  destruct (PyText.parse_float vL) as [L | ] eqn:PL; bind_step; [ | discriminate ].
  destruct (form_get "D" fm) as [vD | ] eqn:GD; bind_step; [ | discriminate ].
  destruct (PyText.parse_float vD) as [D | ] eqn:PD; bind_step; [ | discriminate ].
  destruct (form_get "Q" fm) as [vQ | ] eqn:GQ; bind_step; [ | discriminate ].
  destruct (PyText.parse_float vQ) as [Q | ] eqn:PQ; bind_step; [ | discriminate ].
  destruct (form_get_float "rho" rho_water fm) as [rho | ] eqn:R; bind_step;
    [ | discriminate ].
  destruct (form_get_float "mu" mu_water fm) as [mu | ] eqn:M; bind_step;
    [ | discriminate ].
  intros H. inversion H. cbn. exists vL, vD, vQ. repeat split; assumption.
Qed.

(** The defaults as the form would spell them. *)
Lemma py_float_1000 : py_float "1000" = Ok rho_water.
Proof. vm_compute. reflexivity. Qed.

Lemma py_float_0001 : py_float "0.001" = Ok mu_water.
Proof. vm_compute. reflexivity. Qed.

Lemma form_get_app_same (key v : string) (fm : form) :
  form_get key (fm ++ [(key, v)]) =
  match form_get key fm with
  | Some x => Some x
  | None => Some v
  end.
Proof.
  induction fm as [ | [k x] rest IH]; cbn.
  - rewrite String.eqb_refl. reflexivity.
  - destruct (String.eqb k key); [ reflexivity | exact IH ].
Qed.

Lemma form_get_app_other (key key' v : string) (fm : form) :
  String.eqb key' key = false ->
  form_get key (fm ++ [(key', v)]) = form_get key fm.
Proof.
  intros N. induction fm as [ | [k x] rest IH]; cbn.
  - rewrite N. reflexivity.
  - destruct (String.eqb k key); [ reflexivity | exact IH ].
Qed.

End ViewFacts.

(** C5, as amended: when the three required fields are submitted and
    [float] rejects the value of some field, required or optional, the
    page shows the message "Please enter valid numbers." and nothing else:
    no result line is rendered. *)
Theorem C5_parse_failure_message
  (pw : float -> float -> float) (cx : ComplexRuntime) (fm : form) :
  required_present fm = true ->
  some_unparsable fm = true ->
  calculator_results pw cx POST fm = Ok (Some (ErrorBlock "Please enter valid numbers."))
  /\ calculator pw cx POST fm = Ok [AlertDanger "Please enter valid numbers."].
Proof.
  intros P U.
  exact (calculator_on_value_error pw cx fm (calculator_parse_value_error fm P U)).
Qed.

(** C5, counterexample: [D] does not parse, but [L] is missing and is read
    first: the view is left by the framework's [BadRequestKeyError], which
    the handler of [ValueError] does not catch. *)
Lemma C5_unparsable_after_missing :
  some_unparsable [("D", "abc"); ("Q", "1")]%string = true
  /\ forall pw cx,
       calculator pw cx POST [("D", "abc"); ("Q", "1")]%string
       = Raise BadRequestKeyError.
Proof. split; [ reflexivity | intros pw cx; reflexivity ]. Qed.

(** C5 at a submission whose length is not a number. *)
Lemma C5_parse_failure_witness :
  required_present [("L", "abc"); ("D", "0.1"); ("Q", "0.01")]%string = true
  /\ some_unparsable [("L", "abc"); ("D", "0.1"); ("Q", "0.01")]%string = true
  /\ (forall pw cx,
        calculator_results pw cx POST
          [("L", "abc"); ("D", "0.1"); ("Q", "0.01")]%string
        = Ok (Some (ErrorBlock "Please enter valid numbers."))
        /\ calculator pw cx POST
             [("L", "abc"); ("D", "0.1"); ("Q", "0.01")]%string
           = Ok [AlertDanger "Please enter valid numbers."]).
Proof.
  split; [ reflexivity | split; [ reflexivity | ] ].
  intros pw cx.
  exact (C5_parse_failure_message pw cx
           [("L", "abc"); ("D", "0.1"); ("Q", "0.01")]%string eq_refl eq_refl).
Defined.

(** C6: a submission without [rho] is read with [rho = 1000], one without
    [mu] with [mu = 0.001], exactly as if the field had been submitted with
    the value "1000", respectively "0.001"; [L], [D] and [Q] have no
    default: without one of them no scenario is read. *)
Theorem C6_defaults (fm : form) :
  (form_get "rho" fm = None ->
   (forall s, calculator_parse fm = Ok s -> in_rho s = 1000%float)
   /\ calculator_parse (fm ++ [("rho", "1000")]%string) = calculator_parse fm)
  /\ (form_get "mu" fm = None ->
      (forall s, calculator_parse fm = Ok s -> in_mu s = 0.001%float)
      /\ calculator_parse (fm ++ [("mu", "0.001")]%string) = calculator_parse fm)
  /\ (required_present fm = false ->
      calculator_parse fm = Raise BadRequestKeyError
      \/ calculator_parse fm = Raise ValueError).
Proof.
  split; [ | split ].
  - intros N. split.
    + intros s H.
      destruct (calculator_parse_inv fm s H) as (vL & vD & vQ & _ & _ & _ & _ & _ & _ & R & _).
      unfold form_get_float in R. rewrite N in R. inversion R. reflexivity.
    + unfold calculator_parse, form_getitem, form_get_float.
      rewrite (form_get_app_other "L" "rho"), (form_get_app_other "D" "rho"),
        (form_get_app_other "Q" "rho"), (form_get_app_other "mu" "rho")
        by reflexivity.
      rewrite form_get_app_same, N, py_float_1000. reflexivity.
  - intros N. split.
    + intros s H.
      destruct (calculator_parse_inv fm s H) as (vL & vD & vQ & _ & _ & _ & _ & _ & _ & _ & M).
      unfold form_get_float in M. rewrite N in M. inversion M. reflexivity.
    + unfold calculator_parse, form_getitem, form_get_float.
      rewrite (form_get_app_other "L" "mu"), (form_get_app_other "D" "mu"),
        (form_get_app_other "Q" "mu"), (form_get_app_other "rho" "mu")
        by reflexivity.
      rewrite form_get_app_same, N, py_float_0001. reflexivity.
  - apply calculator_parse_missing.
Qed.

(** C6 at the preset submission, which has neither [rho] nor [mu], and at
    a submission without [L]. *)
Lemma C6_defaults_witness :
  form_get "rho" preset_form = None
  /\ form_get "mu" preset_form = None
  /\ calculator_parse preset_form = Ok Examples.preset
  /\ in_rho Examples.preset = 1000%float
  /\ in_mu Examples.preset = 0.001%float
  /\ calculator_parse (preset_form ++ [("rho", "1000")]%string)
     = calculator_parse preset_form
  /\ calculator_parse (preset_form ++ [("mu", "0.001")]%string)
     = calculator_parse preset_form
  /\ required_present [("D", "0.1"); ("Q", "0.01")]%string = false
  /\ (calculator_parse [("D", "0.1"); ("Q", "0.01")]%string = Raise BadRequestKeyError
      \/ calculator_parse [("D", "0.1"); ("Q", "0.01")]%string = Raise ValueError).
Proof.
  assert (P : calculator_parse preset_form = Ok Examples.preset)
    by (vm_compute; reflexivity).
  pose proof (C6_defaults preset_form) as (R & M & _).
  destruct (R eq_refl) as (R1 & R2). destruct (M eq_refl) as (M1 & M2).
  split; [ reflexivity | ].
  split; [ reflexivity | ].
  split; [ exact P | ].
  split; [ exact (R1 _ P) | ].
  split; [ exact (M1 _ P) | ].
  split; [ exact R2 | ].
  split; [ exact M2 | ].
  split; [ reflexivity | ].
  exact (proj2 (proj2 (C6_defaults [("D", "0.1"); ("Q", "0.01")]%string)) eq_refl).
Defined.

(** C10, as amended: the defaults stand in for a missing field only; when
    the three required fields are submitted and [rho] or [mu] is submitted
    empty, the page shows the parse-error message. *)
Theorem C10_empty_optional_field
  (pw : float -> float -> float) (cx : ComplexRuntime) (fm : form) :
  required_present fm = true ->
  form_get "rho" fm = Some EmptyString \/ form_get "mu" fm = Some EmptyString ->
  calculator_results pw cx POST fm = Ok (Some (ErrorBlock "Please enter valid numbers."))
  /\ calculator pw cx POST fm = Ok [AlertDanger "Please enter valid numbers."].
Proof.
  intros P E.
  apply calculator_on_value_error, calculator_parse_value_error; [ exact P | ].
  unfold some_unparsable, existsb, field_unparsable.
  destruct E as [E | E]; rewrite E;
    change (PyText.parse_float EmptyString) with (@None float);
    rewrite ?orb_true_r; reflexivity.
Qed.

(** C10, counterexample: [rho] is submitted empty, but [L] is missing and
    is read first: the view is left by [BadRequestKeyError]. *)
Lemma C10_empty_after_missing :
  form_get "rho" [("D", "0.1"); ("Q", "0.01"); ("rho", "")]%string = Some EmptyString
  /\ forall pw cx,
       calculator pw cx POST [("D", "0.1"); ("Q", "0.01"); ("rho", "")]%string
       = Raise BadRequestKeyError.
Proof. split; [ reflexivity | intros pw cx; reflexivity ]. Qed.

(** C10 at the preset submission with an empty [mu]. *)
Lemma C10_empty_optional_witness :
  required_present (preset_form ++ [("mu", "")]%string) = true
  /\ form_get "mu" (preset_form ++ [("mu", "")]%string) = Some EmptyString
  /\ (forall pw cx,
        calculator_results pw cx POST (preset_form ++ [("mu", "")]%string)
        = Ok (Some (ErrorBlock "Please enter valid numbers."))
        /\ calculator pw cx POST (preset_form ++ [("mu", "")]%string)
           = Ok [AlertDanger "Please enter valid numbers."]).
Proof.
  split; [ reflexivity | split; [ reflexivity | ] ].
  intros pw cx.
  exact (C10_empty_optional_field pw cx (preset_form ++ [("mu", "")]%string)
           eq_refl (or_intror eq_refl)).
Defined.

(** C9: [float] accepts "nan", "inf" and "-inf", and a submission with
    such a value is answered with a results block, not with the
    parse-error message: with [Q = "nan"] every line is [nan], with
    [L = "inf"] the head loss and the pressure drop are [inf].  The C
    library is not called on these submissions. *)
Theorem C9_nan_and_inf_are_numbers :
  (PyText.parse_float "nan" = Some nan
   /\ PyText.parse_float "inf" = Some infinity
   /\ PyText.parse_float "-inf" = Some neg_infinity)
  /\ (forall pw cx,
        calculator pw cx POST [("L", "1"); ("D", "2"); ("Q", "nan")]%string
        = Ok [ResultLine "Velocity (V):" "nan m/s";
              ResultLine "Reynolds number (Re):" "nan";
              ResultLine "Friction factor (f):" "nan";
              ResultLine "Head loss (hf):" "nan m";
              ResultLine "Pressure drop (ΔP):" "nan Pa (nan kPa)"]%string)
  /\ (forall pw cx,
        calculator pw cx POST
          [("L", "inf"); ("D", "2"); ("Q", "3.141592653589793");
           ("rho", "1"); ("mu", "2")]%string
        = Ok [ResultLine "Velocity (V):" "1.000 m/s";
              ResultLine "Reynolds number (Re):" "1";
              ResultLine "Friction factor (f):" "0.3164";
              ResultLine "Head loss (hf):" "inf m";
              ResultLine "Pressure drop (ΔP):" "inf Pa (inf kPa)";
              AlertWarning laminar_warning]%string).
Proof.
  split; [ repeat split; vm_compute; reflexivity | ].
  split; intros pw cx; vm_compute; reflexivity.
Qed.

(** ** The display strings *)

Module TextFacts.

Import PyText.

Lemma has_char_app (c : ascii) (a b : string) :
  has_char c (a ++ b) = has_char c a || has_char c b.
Proof.
  induction a as [ | x a IH]; cbn; [ reflexivity | ].
  rewrite IH, orb_assoc. reflexivity.
Qed.

Lemma has_char_of_list (c : ascii) (l : list ascii) :
  has_char c (string_of_list_ascii l) = existsb (fun a => Ascii.eqb a c) l.
Proof. induction l as [ | a l IH]; cbn; [ reflexivity | rewrite IH; reflexivity ]. Qed.

Lemma uint_digits (d : Decimal.uint) :
  is_digits (list_ascii_of_string (NilEmpty.string_of_uint d)) = true.
Proof. induction d; cbn; auto. Qed.

Lemma digits_of_digits (n : Z) : is_digits (digits_of n) = true.
Proof.
  unfold digits_of, NilZero.string_of_uint.
  destruct (N.to_uint (Z.to_N n)) eqn:E; try reflexivity;
    rewrite <- E; apply uint_digits.
Qed.

Lemma digits_of_not_empty (n : Z) : (1 <= length (digits_of n))%nat.
Proof.
  unfold digits_of, NilZero.string_of_uint.
  destruct (N.to_uint (Z.to_N n)); cbn; lia.
Qed.

Lemma digit_is_not (c k : ascii) :
  is_digit c = true -> is_digit k = false -> Ascii.eqb c k = false.
Proof.
  intros D K. destruct (Ascii.eqb_spec c k) as [-> | _]; [ congruence | reflexivity ].
Qed.

Lemma digits_have_no (k : ascii) (l : list ascii) :
  is_digit k = false -> is_digits l = true ->
  existsb (fun a => Ascii.eqb a k) l = false.
Proof.
  intros K. induction l as [ | a l IH]; cbn; [ reflexivity | ].
  intros H. apply andb_prop in H. destruct H as [Ha Hl].
  rewrite (digit_is_not a k Ha K), (IH Hl). reflexivity.
Qed.

(** With no fractional digit the integer is written as it is. *)
Lemma fixed_0 (n : Z) : fixed 0 n = digits_of n.
Proof.
  unfold fixed. pose proof (digits_of_not_empty n) as L.
  replace (1 - length (digits_of n))%nat with O by lia.
  reflexivity.
Qed.

Lemma format_f_0_no_point (x : float) : has_char "." (format_f 0 x) = false.
Proof.
  unfold format_f.
  destruct (Prim2SF x) as [s | s | | s m e]; try destruct s; try reflexivity;
    rewrite has_char_of_list, existsb_app, fixed_0,
      (digits_have_no "." _ eq_refl (digits_of_digits _));
    reflexivity.
Qed.

(** [round_half_even m e] is an integer nearest to [m * 2^e]. *)
Lemma round_half_even_exact (m e : Z) :
  0 <= e -> round_half_even m e = m * 2 ^ e.
Proof.
  intros H. unfold round_half_even.
  destruct (0 <=? e) eqn:E; [ reflexivity | ].
  apply Z.leb_gt in E. lia.
Qed.

Lemma round_half_even_nearest (m e : Z) :
  e < 0 ->
  Z.abs (2 * (m - round_half_even m e * 2 ^ (- e))) <= 2 ^ (- e).
Proof.
  intros H. unfold round_half_even.
  destruct (0 <=? e) eqn:E; [ apply Z.leb_le in E; lia | ].
  cbv zeta.
  assert (D : 0 < 2 ^ (- e)) by (apply Z.pow_pos_nonneg; lia).
  set (d := 2 ^ (- e)) in *.
  pose proof (Z.div_mod m d ltac:(lia)) as DM.
  pose proof (Z.mod_pos_bound m d D) as B.
  set (q := m / d) in *. set (r := m mod d) in *.
  clearbody q r d.
  assert (R0 : m - q * d = r) by (rewrite DM; ring).
  assert (R1 : m - (q + 1) * d = r - d) by (rewrite DM; ring).
  destruct (Z.compare_spec (2 * r) d) as [C | C | C].
  - destruct (Z.even q); rewrite ?R0, ?R1; lia.
  - rewrite R0. lia.
  - rewrite R1. lia.
Qed.

(** The display of a finite float [m * 2^e] with [p] fractional digits:
    the sign, and the digits of an integer nearest to [m * 2^e * 10^p] with
    the point before the last [p] of them. *)
Lemma format_f_finite (p : nat) (x : float) (sgn : bool) (m : positive) (e : Z) :
  Prim2SF x = S754_finite sgn m e ->
  exists n,
    format_f p x = string_of_list_ascii (sign_of sgn ++ fixed p n)
    /\ (0 <= e -> n = Z.pos m * 10 ^ Z.of_nat p * 2 ^ e)
    /\ (e < 0 ->
        Z.abs (2 * (Z.pos m * 10 ^ Z.of_nat p - n * 2 ^ (- e))) <= 2 ^ (- e)).
Proof.
  intros E. unfold format_f. rewrite E.
  exists (round_half_even (Z.pos m * 10 ^ Z.of_nat p) e).
  split; [ reflexivity | split ].
  - apply round_half_even_exact.
  - apply round_half_even_nearest.
Qed.

Lemma string_length_app (a b : string) :
  String.length (a ++ b) = (String.length a + String.length b)%nat.
Proof. induction a as [ | c a IH]; cbn; [ reflexivity | rewrite IH; reflexivity ]. Qed.

Lemma remove_suffix_cons (suffix : string) (c : ascii) (t : string) :
  remove_suffix suffix (String c t) =
  if String.eqb (String c t) suffix then Some EmptyString
  else option_map (String c) (remove_suffix suffix t).
Proof. reflexivity. Qed.

Lemma remove_suffix_self (suffix : string) :
  remove_suffix suffix suffix = Some EmptyString.
Proof.
  destruct suffix as [ | c t]; [ reflexivity | ].
  rewrite remove_suffix_cons, String.eqb_refl. reflexivity.
Qed.

Lemma remove_suffix_app (suffix t : string) :
  remove_suffix suffix (t ++ suffix) = Some t.
Proof.
  induction t as [ | c t IH].
  - apply remove_suffix_self.
  - change (String c t ++ suffix)%string with (String c (t ++ suffix)).
    rewrite remove_suffix_cons.
    destruct (String.eqb (String c (t ++ suffix)) suffix) eqn:E.
    + apply String.eqb_eq in E. apply (f_equal String.length) in E.
      cbn in E. rewrite string_length_app in E. lia.
    + rewrite IH. reflexivity.
Qed.

(** *** Reading a display back *)

Lemma digit_facts (c : ascii) :
  is_digit c = true ->
  clean c = true
  /\ is_char "-" c = false /\ is_char "+" c = false /\ is_char "." c = false
  /\ Ascii.eqb (lower c) "i" = false /\ Ascii.eqb (lower c) "n" = false.
Proof.
  destruct c as [[] [] [] [] [] [] [] []]; intros H; vm_compute in H;
    try discriminate H; repeat split; vm_compute; reflexivity.
Qed.

Lemma clean_facts (c : ascii) :
  clean c = true -> is_space c = false /\ is_char "_" c = false.
Proof.
  destruct c as [[] [] [] [] [] [] [] []]; intros H; vm_compute in H;
    try discriminate H; split; vm_compute; reflexivity.
Qed.

Lemma forallb_impl {A : Type} (f g : A -> bool) (l : list A) :
  (forall a, f a = true -> g a = true) -> forallb f l = true -> forallb g l = true.
Proof.
  intros I. induction l as [ | a l IH]; cbn; [ reflexivity | ].
  intros H. apply andb_prop in H. destruct H as [Ha Hl].
  rewrite (I a Ha), (IH Hl). reflexivity.
Qed.

Lemma forallb_rev {A : Type} (f : A -> bool) (l : list A) :
  forallb f (rev l) = forallb f l.
Proof.
  induction l as [ | a l IH]; cbn; [ reflexivity | ].
  rewrite forallb_app, IH. cbn. rewrite andb_true_r, andb_comm. reflexivity.
Qed.

Lemma lstrip_clean (l : list ascii) :
  forallb clean l = true -> lstrip l = l.
Proof.
  destruct l as [ | c l]; [ reflexivity | ].
  cbn [forallb]. intros H. apply andb_prop in H. destruct H as [Hc _].
  change (lstrip (c :: l)) with (if is_space c then lstrip l else c :: l).
  rewrite (proj1 (clean_facts c Hc)). reflexivity.
Qed.

Lemma strip_clean (l : list ascii) : forallb clean l = true -> strip l = l.
Proof.
  intros H. unfold strip. rewrite (lstrip_clean l H).
  rewrite lstrip_clean by (rewrite forallb_rev; exact H).
  apply rev_involutive.
Qed.

Lemma drop_underscores_nil (prev : ascii) :
  drop_underscores prev [] = if is_char "_" prev then None else Some [].
Proof. reflexivity. Qed.

Lemma drop_underscores_cons (prev c : ascii) (l : list ascii) :
  drop_underscores prev (c :: l) =
  if is_char "_" c then
    if is_digit prev then drop_underscores c l else None
  else if is_char "_" prev && negb (is_digit c) then None
  else option_map (cons c) (drop_underscores c l).
Proof. reflexivity. Qed.

Lemma drop_underscores_clean (l : list ascii) (prev : ascii) :
  forallb clean l = true -> is_char "_" prev = false ->
  drop_underscores prev l = Some l.
Proof.
  revert prev. induction l as [ | c l IH]; intros prev H P.
  - rewrite drop_underscores_nil, P. reflexivity.
  - cbn [forallb] in H. apply andb_prop in H. destruct H as [Hc Hl].
    destruct (clean_facts c Hc) as [_ U].
    rewrite drop_underscores_cons, U, P, (IH c Hl U). reflexivity.
Qed.

Lemma take_digits_nil (acc : Z) : take_digits acc [] = (acc, O, []).
Proof. reflexivity. Qed.

Lemma take_digits_cons (acc : Z) (c : ascii) (t : list ascii) :
  take_digits acc (c :: t) =
  if is_digit c then
    let '(v, n, rest) := take_digits (10 * acc + digit_value c) t in
    (v, S n, rest)
  else (acc, O, c :: t).
Proof. reflexivity. Qed.

Lemma take_digits_spec (l rest : list ascii) (acc : Z) :
  is_digits l = true ->
  match rest with [] => True | c :: _ => is_digit c = false end ->
  take_digits acc (l ++ rest) = (digits_value acc l, length l, rest).
Proof.
  revert acc. induction l as [ | c l IH]; intros acc H R.
  - destruct rest as [ | r rest]; [ reflexivity | ].
    change ([] ++ r :: rest) with (r :: rest).
    rewrite take_digits_cons, R. reflexivity.
  - unfold is_digits in H. cbn [forallb] in H.
    apply andb_prop in H. destruct H as [Hc Hl].
    change ((c :: l) ++ rest) with (c :: (l ++ rest)).
    rewrite take_digits_cons, Hc, (IH _ Hl R). reflexivity.
Qed.

Lemma digits_value_app (a b : list ascii) (acc : Z) :
  digits_value acc (a ++ b) = digits_value (digits_value acc a) b.
Proof. apply fold_left_app. Qed.

Lemma digits_value_zeros (k : nat) : digits_value 0 (repeat "0"%char k) = 0.
Proof. induction k as [ | k IH]; [ reflexivity | exact IH ]. Qed.

Lemma digits_value_cons (acc : Z) (c : ascii) (l : list ascii) :
  digits_value acc (c :: l) = digits_value (10 * acc + digit_value c) l.
Proof. reflexivity. Qed.

Ltac digit_step :=
  cbn -[Pos.add Pos.mul Z.add Z.mul digits_value digit_value];
  rewrite digits_value_cons;
  match goal with
  | |- context [digit_value ?c] =>
      let v := eval vm_compute in (digit_value c) in
      change (digit_value c) with v
  end.

Lemma uint_value_acc (d : Decimal.uint) (acc : positive) :
  digits_value (Z.pos acc) (list_ascii_of_string (NilEmpty.string_of_uint d))
  = Z.pos (Pos.of_uint_acc d acc).
Proof.
  revert acc. induction d; intros acc; [ reflexivity | .. ];
    digit_step; rewrite <- IHd; f_equal; lia.
Qed.

Lemma uint_value (d : Decimal.uint) :
  digits_value 0 (list_ascii_of_string (NilEmpty.string_of_uint d))
  = Z.of_N (Pos.of_uint d).
Proof.
  induction d; [ reflexivity | .. ]; digit_step;
    first [ exact IHd | apply uint_value_acc ].
Qed.

Lemma digits_of_value (n : Z) : 0 <= n -> digits_value 0 (digits_of n) = n.
Proof.
  intros H. unfold digits_of, NilZero.string_of_uint.
  assert (V : digits_value 0
                (list_ascii_of_string
                   (NilEmpty.string_of_uint (N.to_uint (Z.to_N n)))) = n).
  { rewrite uint_value.
    change (Pos.of_uint (N.to_uint (Z.to_N n)))
      with (N.of_uint (N.to_uint (Z.to_N n))).
    rewrite DecimalN.Unsigned.of_to. apply Z2N.id, H. }
  destruct (N.to_uint (Z.to_N n)); exact V.
Qed.

(** The digits of [fixed]: how they split around the point. *)
Lemma padded_digits (p : nat) (n : Z) :
  let ds := repeat "0"%char (S p - length (digits_of n)) ++ digits_of n in
  is_digits ds = true /\ (S p <= length ds)%nat
  /\ (0 <= n -> digits_value 0 ds = n).
Proof.
  cbv zeta. split; [ | split ].
  - unfold is_digits. rewrite forallb_app. apply andb_true_intro. split.
    + induction (S p - length (digits_of n))%nat; [ reflexivity | exact IHn0 ].
    + apply digits_of_digits.
  - rewrite length_app, repeat_length. lia.
  - intros H. rewrite digits_value_app, digits_value_zeros. apply digits_of_value, H.
Qed.

Lemma is_digits_split (k : nat) (l : list ascii) :
  is_digits l = true -> is_digits (firstn k l) = true /\ is_digits (skipn k l) = true.
Proof.
  intros H. rewrite <- (firstn_skipn k l) in H. unfold is_digits in *.
  rewrite forallb_app in H. apply andb_prop in H. exact H.
Qed.

Lemma digits_clean (l : list ascii) : is_digits l = true -> forallb clean l = true.
Proof. apply forallb_impl. intros c D. exact (proj1 (digit_facts c D)). Qed.

(** What [fixed] writes is made of digits and at most one point, starts
    with a digit, and reads back as [n] scaled by [10^-p]. *)
Lemma fixed_clean (p : nat) (n : Z) : forallb clean (fixed p n) = true.
Proof.
  unfold fixed. destruct (padded_digits p n) as (D & L & _). cbv zeta in D, L.
  destruct p as [ | p]; [ apply digits_clean, D | ].
  set (ds := repeat "0"%char (S (S p) - length (digits_of n)) ++ digits_of n) in *.
  destruct (is_digits_split (length ds - S p) ds D) as [D1 D2].
  rewrite forallb_app. apply andb_true_intro. split; [ apply digits_clean, D1 | ].
  cbn [forallb]. rewrite (digits_clean _ D2). reflexivity.
Qed.

Lemma fixed_head (p : nat) (n : Z) :
  exists d rest, fixed p n = d :: rest /\ is_digit d = true.
Proof.
  unfold fixed. destruct (padded_digits p n) as (D & L & _). cbv zeta in D, L.
  set (ds := repeat "0"%char (S p - length (digits_of n)) ++ digits_of n) in *.
  destruct ds as [ | d ds']; [ cbn in L; lia | ].
  unfold is_digits in D. cbn [forallb] in D. apply andb_prop in D.
  destruct D as [Dd _].
  destruct p as [ | p]; [ eauto | ].
  cbn [length] in *.
  replace (S (length ds') - S p)%nat with (S (length ds' - S p)) by lia.
  cbn [firstn app]. eauto.
Qed.

Lemma parse_number_fixed (neg : bool) (p : nat) (n : Z) :
  0 <= n ->
  parse_number neg (fixed p n) = Some (decimal_to_float neg n (0 - Z.of_nat p)).
Proof.
  intros H. unfold fixed. destruct (padded_digits p n) as (D & L & V).
  cbv zeta in D, L, V. specialize (V H).
  set (ds := repeat "0"%char (S p - length (digits_of n)) ++ digits_of n) in *.
  unfold parse_number. destruct p as [ | p].
  - rewrite <- (app_nil_r ds) at 1. rewrite (take_digits_spec ds [] 0 D I), V.
    destruct (length ds) eqn:E; [ lia | ].
    rewrite Nat.add_0_r. reflexivity.
  - destruct (is_digits_split (length ds - S p) ds D) as [D1 D2].
    rewrite (take_digits_spec _ ("."%char :: _) 0 D1 eq_refl).
    change (is_char "." ".") with true. cbv iota.
    rewrite <- (app_nil_r (skipn _ ds)) at 1.
    rewrite (take_digits_spec _ [] _ D2 I), <- digits_value_app, firstn_skipn, V.
    rewrite length_firstn, length_skipn.
    replace (Nat.min (length ds - S p) (length ds) + (length ds - (length ds - S p)))%nat
      with (S (length ds - 1)) by lia.
    replace (length ds - (length ds - S p))%nat with (S p) by lia.
    reflexivity.
Qed.

Lemma parse_inf_or_nan_digit (neg : bool) (d : ascii) (rest : list ascii) :
  is_digit d = true -> parse_inf_or_nan neg (d :: rest) = None.
Proof.
  intros D. destruct (digit_facts d D) as (_ & _ & _ & _ & Hi & Hn).
  unfold parse_inf_or_nan. cbn [map string_of_list_ascii String.eqb].
  rewrite Hi, Hn. reflexivity.
Qed.

Lemma take_sign_cons (c : ascii) (t : list ascii) :
  take_sign (c :: t) =
  if is_char "-" c then (true, t)
  else if is_char "+" c then (false, t)
  else (false, c :: t).
Proof. reflexivity. Qed.

(** What [float] reads in a fixed-point display. *)
Lemma parse_float_fixed (neg : bool) (p : nat) (n : Z) :
  0 <= n ->
  parse_float (string_of_list_ascii (sign_of neg ++ fixed p n))
  = Some (decimal_to_float neg n (0 - Z.of_nat p)).
Proof.
  intros H. unfold parse_float. rewrite list_ascii_of_string_of_list_ascii.
  assert (K : forallb clean (sign_of neg ++ fixed p n) = true).
  { rewrite forallb_app, fixed_clean. destruct neg; reflexivity. }
  rewrite (strip_clean _ K), (drop_underscores_clean _ "000"%char K eq_refl).
  destruct (fixed_head p n) as (d & rest & E & D).
  destruct (digit_facts d D) as (_ & Hm & Hp & _).
  assert (S : take_sign (sign_of neg ++ fixed p n) = (neg, fixed p n)).
  { destruct neg; [ reflexivity | ].
    change (sign_of false ++ fixed p n) with (fixed p n).
    rewrite E, take_sign_cons, Hm, Hp. reflexivity. }
  rewrite S. rewrite E at 1. rewrite (parse_inf_or_nan_digit neg d rest D).
  apply parse_number_fixed, H.
Qed.

Lemma round_half_even_nonneg (m e : Z) : 0 <= m -> 0 <= round_half_even m e.
Proof.
  intros H. unfold round_half_even.
  destruct (0 <=? e) eqn:E.
  - apply Z.leb_le in E. apply Z.mul_nonneg_nonneg; [ exact H | ].
    apply Z.pow_nonneg. lia.
  - apply Z.leb_gt in E.
    assert (D : 0 < 2 ^ (- e)) by (apply Z.pow_pos_nonneg; lia).
    pose proof (Z.div_pos m (2 ^ (- e)) H D) as Q.
    cbv zeta.
    destruct (2 * (m mod 2 ^ (- e)) ?= 2 ^ (- e)); [ destruct (Z.even _) | | ]; lia.
Qed.

(** Reading a display back: [nan], the infinities and the zeros come back
    as they are; a finite float [m * 2^e] comes back as the float nearest
    to the decimal displayed. *)
Lemma parse_format_f (p : nat) (x : float) :
  match Prim2SF x with
  | S754_finite sgn m e =>
      parse_float (format_f p x)
      = Some (decimal_to_float sgn
                (round_half_even (Z.pos m * 10 ^ Z.of_nat p) e)
                (0 - Z.of_nat p))
  | _ => parse_float (format_f p x) = Some x
  end.
Proof.
  unfold format_f.
  destruct (Prim2SF x) as [s | s | | s m e] eqn:E.
  - rewrite (parse_float_fixed s p 0 (Z.le_refl 0)).
    rewrite <- (SF2Prim_Prim2SF x), E. destruct s; reflexivity.
  - rewrite <- (SF2Prim_Prim2SF x), E. destruct s; vm_compute; reflexivity.
  - rewrite <- (SF2Prim_Prim2SF x), E. vm_compute. reflexivity.
  - apply parse_float_fixed, round_half_even_nonneg.
    apply Z.mul_nonneg_nonneg; [ lia | apply Z.pow_nonneg; lia ].
Qed.

End TextFacts.

(** ** Claims on the display *)

Section DisplayClaims.

Variable libm_pow : float -> float -> float.
Variable cx : ComplexRuntime.

#[local] Abbreviation compute := (calculator_compute libm_pow cx) (only parsing).
#[local] Abbreviation view := (calculator_results libm_pow cx) (only parsing).
#[local] Abbreviation fmt := (format_num cx) (only parsing).

(** When the view ends with a results block, and with which. *)
Lemma calculator_results_block (fm : form) (V Re f hf dP w : string) :
  view POST fm = Ok (Some (ResultsBlock V Re f hf dP w))
  <-> exists s fl kPa,
        calculator_parse fm = Ok s
        /\ compute s = Ok fl
        /\ py_truediv cx (flow_delta_P fl) (F 1000) = Ok kPa
        /\ V = (fmt 3 (flow_V fl) ++ " m/s")%string
        /\ Re = fmt 0 (flow_Re fl)
        /\ f = fmt 4 (flow_f fl)
        /\ hf = (fmt 3 (flow_hf fl) ++ " m")%string
        /\ dP = (fmt 0 (flow_delta_P fl) ++ " Pa (" ++ fmt 2 kPa ++ " kPa)")%string
        /\ w = flow_warning fl.
Proof.
  unfold calculator_results. split.
  - destruct (calculator_parse fm) as [s | e] eqn:P; bind_step;
      [ | destruct e; discriminate ].
    destruct (compute s) as [fl | e] eqn:E; bind_step;
      [ | destruct e; discriminate ].
    unfold calculator_format.
    destruct (py_truediv cx (flow_delta_P fl) (F 1000)) as [kPa | e] eqn:K;
      bind_step; [ | destruct e; discriminate ].
    intros H. inversion H. exists s, fl, kPa. repeat split; auto.
  - intros (s & fl & kPa & P & E & K & -> & -> & -> & -> & -> & ->).
    rewrite P. bind_step. rewrite E. bind_step.
    unfold calculator_format. rewrite K. bind_step. reflexivity.
Qed.

(** C7: a submission ends with a results block exactly when it is read
    and computed, and the block is then made of [V] as "{:.3f} m/s", [Re]
    as "{:.0f}", [f] as "{:.4f}", [hf] as "{:.3f} m" and [delta_P] as
    "{:.0f} Pa ({:.2f} kPa)", the second number being [delta_P / 1000];
    the "{:.0f}" display has no decimal point, and the "{:.pf}" display of
    a finite float is its sign followed by the decimal with [p] fractional
    digits nearest to it (with no fractional digit, the digits of a nearest
    integer). *)
Theorem C7_output_format (fm : form) (V Re f hf dP w : string) :
  (view POST fm = Ok (Some (ResultsBlock V Re f hf dP w))
   <-> exists s fl v re kPa,
         calculator_parse fm = Ok s
         /\ compute s = Ok fl
         /\ flow_V fl = F v
         /\ flow_Re fl = F re
         /\ py_truediv cx (flow_delta_P fl) (F 1000) = Ok kPa
         /\ V = (PyText.format_f 3 v ++ " m/s")%string
         /\ Re = PyText.format_f 0 re
         /\ f = fmt 4 (flow_f fl)
         /\ hf = (fmt 3 (flow_hf fl) ++ " m")%string
         /\ dP = (fmt 0 (flow_delta_P fl) ++ " Pa (" ++ fmt 2 kPa ++ " kPa)")%string
         /\ w = flow_warning fl)
  /\ (forall x, has_char "." (PyText.format_f 0 x) = false)
  /\ (forall p x sgn m e,
        Prim2SF x = S754_finite sgn m e ->
        exists n,
          PyText.format_f p x
          = string_of_list_ascii (PyText.sign_of sgn ++ PyText.fixed p n)
          /\ (0 <= e -> n = Z.pos m * 10 ^ Z.of_nat p * 2 ^ e)
          /\ (e < 0 ->
              Z.abs (2 * (Z.pos m * 10 ^ Z.of_nat p - n * 2 ^ (- e)))
              <= 2 ^ (- e)))
  /\ (forall n, PyText.fixed 0 n = PyText.digits_of n).
Proof.
  split; [ | split; [ | split ] ].
  - rewrite calculator_results_block. split.
    + intros (s & fl & kPa & P & E & K & HV & HRe & Hf & Hhf & HdP & Hw).
      destruct (calculator_compute_inv libm_pow cx s fl E)
        as (sq & v & re & p & v2 & _ & _ & _ & EV & _ & _ & ERe & _).
      exists s, fl, v, re, kPa. rewrite EV in HV. rewrite ERe in HRe.
      repeat split; assumption.
    + intros (s & fl & v & re & kPa & P & E & EV & ERe & K & HV & HRe & Hf
              & Hhf & HdP & Hw).
      exists s, fl, kPa. rewrite EV, ERe. repeat split; assumption.
  - apply TextFacts.format_f_0_no_point.
  - apply TextFacts.format_f_finite.
  - apply TextFacts.fixed_0.
Qed.

(** C8, as amended: when the computation completes with a head loss whose
    three-decimal display reads back as the same float, recomputing
    [rho * g * hf] from the displayed head loss gives the displayed
    pressure drop, character for character.  In general the display of a
    finite head loss [m * 2^e] is a decimal [n / 1000] at most [0.0005]
    away from it, it reads back as the float [hf'] nearest to that
    decimal, and the recomputation displays [rho * g * hf']. *)
Theorem C8_round_trip_when_lossless :
  (forall (fm : form) (s : scenario) (fl : flow cx) (hf : float),
     calculator_parse fm = Ok s ->
     compute s = Ok fl ->
     flow_hf fl = F hf ->
     PyText.parse_float (PyText.format_f 3 hf) = Some hf ->
     exists V Re f hf_text dP_text w,
       view POST fm = Ok (Some (ResultsBlock V Re f hf_text dP_text w))
       /\ recompute_delta_P (in_rho s) hf_text = Some dP_text)
  /\ (forall (rho hf : float) sgn m e,
        Prim2SF hf = S754_finite sgn m e ->
        exists n hf',
          PyText.format_f 3 hf
          = string_of_list_ascii (PyText.sign_of sgn ++ PyText.fixed 3 n)
          /\ (0 <= e -> n = Z.pos m * 1000 * 2 ^ e)
          /\ (e < 0 ->
              Z.abs (2 * (Z.pos m * 1000 - n * 2 ^ (- e))) <= 2 ^ (- e))
          /\ hf' = PyText.decimal_to_float sgn n (-3)
          /\ recompute_delta_P rho (PyText.format_f 3 hf ++ " m")
             = Some (delta_P_text (rho * g * hf')%float)).
Proof.
  split.
  - intros fm s fl hf P E Hhf RT.
    destruct (calculator_compute_inv libm_pow cx s fl E)
      as (sq & v & re & p & v2 & _ & _ & _ & _ & _ & _ & _ & _ & _ & _ & _ & _ & _
          & HdP).
    rewrite Hhf in HdP.
    change (py_mul cx (F (in_rho s * g)%float) (F hf))
      with (F (cx := cx) (in_rho s * g * hf)%float) in HdP.
    exists (fmt 3 (flow_V fl) ++ " m/s")%string, (fmt 0 (flow_Re fl)),
      (fmt 4 (flow_f fl)), (PyText.format_f 3 hf ++ " m")%string,
      (delta_P_text (in_rho s * g * hf)%float), (flow_warning fl).
    split.
    + apply calculator_results_block.
      exists s, fl, (F (in_rho s * g * hf / 1000)%float).
      rewrite HdP, Hhf. repeat split; auto.
    + unfold recompute_delta_P.
      rewrite TextFacts.remove_suffix_app, RT. reflexivity.
  - intros rho hf sgn m e E.
    pose proof (TextFacts.parse_format_f 3 hf) as R. rewrite E in R.
    exists (PyText.round_half_even (Z.pos m * 1000) e),
      (PyText.decimal_to_float sgn
         (PyText.round_half_even (Z.pos m * 1000) e) (-3)).
    split; [ unfold PyText.format_f; rewrite E; reflexivity | ].
    split; [ apply TextFacts.round_half_even_exact | ].
    split; [ apply TextFacts.round_half_even_nearest | ].
    split; [ reflexivity | ].
    unfold recompute_delta_P.
    rewrite TextFacts.remove_suffix_app, R. reflexivity.
Qed.

End DisplayClaims.

(** [GET /] renders the form with no results. *)
Example get_page (pw : float -> float -> float) (cx : ComplexRuntime) (fm : form) :
  calculator pw cx GET fm = Ok [].
Proof. reflexivity. Qed.

(** C7 at the preset scenario. *)
Example preset_page (cx : ComplexRuntime) :
  calculator RefLibm.ref_pow cx POST preset_form
  = Ok [ResultLine "Velocity (V):" "1.273 m/s";
        ResultLine "Reynolds number (Re):" "127324";
        ResultLine "Friction factor (f):" "0.0167";
        ResultLine "Head loss (hf):" "1.384 m";
        ResultLine "Pressure drop (ΔP):" "13577 Pa (13.58 kPa)"]%string.
Proof. vm_compute. reflexivity. Qed.

(** C8, counterexample: all inputs are positive; the head loss
    [0.80632...] is displayed as "0.806 m", and [rho * g * 0.806] is
    displayed as "107533 Pa (107.53 kPa)" where the page shows
    "107576 Pa (107.58 kPa)".  The C library is not called on this
    submission. *)
Lemma C8_round_trip_mismatch :
  calculator_parse mercury_form = Ok (Examples.unit_flow 100 13600)
  /\ all_positive (Examples.unit_flow 100 13600) = true
  /\ (forall pw cx,
        calculator_results pw cx POST mercury_form
        = Ok (Some (ResultsBlock "1.000 m/s" "1" "0.3164" "0.806 m"
                      "107576 Pa (107.58 kPa)" laminar_warning)))
  /\ recompute_delta_P 13600 "0.806 m" = Some "107533 Pa (107.53 kPa)"%string.
Proof.
  split; [ vm_compute; reflexivity | ].
  split; [ reflexivity | ].
  split; [ intros pw cx; vm_compute; reflexivity | vm_compute; reflexivity ].
Qed.

(** C8 at a head loss of exactly half a metre, displayed as "0.500 m". *)
Lemma C8_round_trip_witness :
  calculator_parse half_metre_form = Ok half_metre
  /\ (forall pw cx, calculator_compute pw cx half_metre = Ok (half_metre_flow cx))
  /\ PyText.parse_float (PyText.format_f 3 0.5) = Some 0.5%float
  /\ (forall pw cx, exists V Re f hf_text dP_text w,
        calculator_results pw cx POST half_metre_form
        = Ok (Some (ResultsBlock V Re f hf_text dP_text w))
        /\ recompute_delta_P (in_rho half_metre) hf_text = Some dP_text).
Proof.
  assert (P : calculator_parse half_metre_form = Ok half_metre)
    by (vm_compute; reflexivity).
  assert (R : PyText.parse_float (PyText.format_f 3 0.5) = Some 0.5%float)
    by (vm_compute; reflexivity).
  split; [ exact P | ]. split; [ exact half_metre_run | ]. split; [ exact R | ].
  intros pw cx.
  exact (proj1 (C8_round_trip_when_lossless pw cx) half_metre_form half_metre
           (half_metre_flow cx) 0.5%float P (half_metre_run pw cx) eq_refl R).
Defined.

(** On the preset scenario the round trip happens to agree with the
    page. *)
Example preset_round_trip :
  recompute_delta_P 1000 "1.384 m" = Some "13577 Pa (13.58 kPa)"%string.
Proof. vm_compute. reflexivity. Qed.

(** * Further behaviour of the code

    What lines 11-45 and the template do on inputs the statements above
    leave aside: a flow rate that is not a number, a negative Reynolds
    number, the exceptions that leave the view, the fields that are read,
    and the text both [float] and [format] agree on. *)

(** ** More binary64 facts *)

Module FloatCases.

#[local] Open Scope float_scope.

(** There is one [nan]. *)
Lemma isnan_inv (x : float) : PyFloat.isnan x = true -> x = nan.
Proof.
  unfold PyFloat.isnan. rewrite FloatAxioms.eqb_spec. intros H.
  rewrite <- (SF2Prim_Prim2SF x).
  destruct (Prim2SF x) as [s | s | | s m e]; try destruct s; cbn in H;
    try discriminate; try reflexivity.
  all: unfold SFeqb, SFcompare in H; rewrite Z.compare_refl in H;
    rewrite Pos.compare_cont_refl in H; cbn in H; discriminate.
Qed.

Lemma mul_nan_l (y : float) : nan * y = nan.
Proof.
  apply Prim2SF_inj. rewrite mul_spec.
  change (Prim2SF nan) with S754_nan. destruct (Prim2SF y); reflexivity.
Qed.

Lemma mul_nan_r (y : float) : y * nan = nan.
Proof.
  apply Prim2SF_inj. rewrite mul_spec.
  change (Prim2SF nan) with S754_nan. destruct (Prim2SF y); reflexivity.
Qed.

Lemma div_nan_l (y : float) : nan / y = nan.
Proof.
  apply Prim2SF_inj. rewrite div_spec.
  change (Prim2SF nan) with S754_nan. destruct (Prim2SF y); reflexivity.
Qed.

Lemma div_nan_r (y : float) : y / nan = nan.
Proof.
  apply Prim2SF_inj. rewrite div_spec.
  change (Prim2SF nan) with S754_nan. destruct (Prim2SF y); reflexivity.
Qed.

(** What is below zero is [-inf] or a finite number with the sign bit. *)
Lemma negative_inv (x : float) :
  (x <? 0) = true ->
  Prim2SF x = S754_infinity true \/ exists m e, Prim2SF x = S754_finite true m e.
Proof.
  rewrite ltb_spec, FloatFacts.Prim2SF_zero.
  destruct (Prim2SF x) as [s | s | | s m e]; try destruct s; cbn;
    try discriminate; eauto.
Qed.

Lemma negative_not_nan (x : float) : (x <? 0) = true -> PyFloat.isnan x = false.
Proof.
  intros H. unfold PyFloat.isnan. rewrite FloatAxioms.eqb_spec.
  destruct (negative_inv x H) as [E | (m & e & E)]; rewrite E; [ reflexivity | ].
  unfold SFeqb, SFcompare. rewrite Z.compare_refl, Pos.compare_cont_refl.
  reflexivity.
Qed.

Lemma negative_not_zero (x : float) : (x <? 0) = true -> (x =? 0) = false.
Proof.
  intros H. rewrite FloatAxioms.eqb_spec, FloatFacts.Prim2SF_zero.
  destruct (negative_inv x H) as [E | (m & e & E)]; rewrite E; reflexivity.
Qed.

Lemma negative_is_laminar (x : float) : (x <? 0) = true -> (x <? 2100) = true.
Proof.
  intros H. rewrite ltb_spec.
  destruct (negative_inv x H) as [E | (m & e & E)]; rewrite E; reflexivity.
Qed.

End FloatCases.

(** ** The computation off the beaten track *)

Section EngineBehaviour.

Variable libm_pow : float -> float -> float.
Variable cx : ComplexRuntime.

#[local] Open Scope float_scope.

#[local] Abbreviation pow := (float_pow libm_pow cx) (only parsing).
#[local] Abbreviation compute := (calculator_compute libm_pow cx) (only parsing).

Lemma float_pow_nan (iw : float) : (iw =? 0) = false -> pow nan iw = Ok (F nan).
Proof. intros H. unfold float_pow. rewrite H. reflexivity. Qed.

Lemma float_pow_quarter_negative (re : float) :
  negative_finite re = true ->
  pow re 0.25 = py_complex_pow cx (F re) (F 0.25).
Proof.
  unfold negative_finite. intros H. apply andb_true_iff in H. destruct H as [L I].
  apply negb_true_iff in I.
  rewrite float_pow_quarter, (FloatCases.negative_not_nan re L), I,
    (FloatCases.negative_not_zero re L), L.
  reflexivity.
Qed.

(** Outside the negative finite numbers the fourth root is a float. *)
Lemma float_pow_quarter_real (re : float) (p : pynum cx) :
  negative_finite re = false -> pow re 0.25 = Ok p -> exists x, p = F x.
Proof.
  unfold negative_finite. rewrite float_pow_quarter. cbv zeta.
  destruct (PyFloat.isnan re); [ intros _ H; inversion H; eauto | ].
  destruct (PyFloat.isinf re); [ intros _ H; inversion H; eauto | ].
  destruct (re =? 0); [ intros _ H; inversion H; eauto | ].
  destruct (re <? 0); [ discriminate | intros _ ].
  destruct (re =? 1); [ intros H; inversion H; eauto | ].
  destruct (PyFloat.isinf (libm_pow re 0.25)); intros H; inversion H; eauto.
Qed.

(** X1: a flow rate that is not a number is not refused and raises no
    warning: whenever the computation completes on it, the velocity, the
    Reynolds number, the friction factor, the head loss and the pressure
    drop are all [nan], the warning is empty, and the five lines of the
    page read "nan m/s", "nan", "nan", "nan m" and "nan Pa (nan kPa)". *)
Theorem X1_nan_flow_rate_spreads (s : scenario) (fl : flow cx) :
  PyFloat.isnan (in_Q s) = true ->
  compute s = Ok fl ->
  fl = nan_flow cx /\ calculator_format cx fl = Ok nan_block.
Proof.
  intros N E. apply FloatCases.isnan_inv in N.
  destruct (calculator_compute_inv libm_pow cx s fl E)
    as (sq & v & re & p & v2 & _ & _ & Hv & EV & _ & Hre & ERe & Ew & Ep & Ef & _
        & E2 & Ehf & EdP).
  rewrite N, FloatCases.div_nan_l in Hv. subst v.
  rewrite FloatCases.mul_nan_r, FloatCases.mul_nan_l, FloatCases.div_nan_l in Hre.
  subst re.
  rewrite float_pow_nan in Ep by reflexivity. inversion Ep; subst p; clear Ep.
  rewrite float_pow_nan in E2 by reflexivity. inversion E2; subst v2; clear E2.
  assert (Hf : flow_f fl = F nan).
  { unfold py_truediv, PyFloat.truediv in Ef.
    change (nan =? 0) with false in Ef. cbv iota in Ef.
    rewrite bind_ok, FloatCases.div_nan_r in Ef. inversion Ef. reflexivity. }
  assert (fl = nan_flow cx) as ->.
  { destruct fl as [V Re f hf dP w]. cbn in *. subst V Re f w.
    rewrite FloatCases.div_nan_l in Ehf.
    unfold py_mul in Ehf. rewrite FloatCases.mul_nan_r in Ehf. subst hf.
    unfold py_mul in EdP. rewrite FloatCases.mul_nan_r in EdP. subst dP.
    reflexivity. }
  split; [ reflexivity | vm_compute; reflexivity ].
Qed.

(** X2: on a negative finite Reynolds number [calculate_friction_factor]
    never returns a float: [Re ** 0.25] is the complex power, the function
    returns the complex quotient [0.3164 / (Re ** 0.25)] together with the
    laminar warning, or it raises what the complex power or the complex
    division raises. *)
Theorem X2_negative_reynolds_leaves_the_reals (re : float) :
  negative_finite re = true ->
  calculate_friction_factor libm_pow cx (F re) =
  match complex_pow cx (complex_of_float cx re) (complex_of_float cx 0.25) with
  | inl z =>
      match complex_quot cx (complex_of_float cx 0.3164) z with
      | Some f => Ok (C f, laminar_warning)
      | None => Raise ZeroDivisionError
      end
  | inr fault => Raise (fault_exn fault)
  end.
Proof.
  intros H. rewrite friction_factor_float, (float_pow_quarter_negative re H).
  unfold negative_finite in H. apply andb_true_iff in H. destruct H as [L _].
  rewrite (FloatCases.negative_is_laminar re L).
  unfold py_complex_pow, to_complex.
  destruct (complex_pow cx (complex_of_float cx re) (complex_of_float cx 0.25))
    as [z | fault]; bind_step; [ | reflexivity ].
  unfold py_truediv, to_complex.
  destruct (complex_quot cx (complex_of_float cx 0.3164) z); bind_step; reflexivity.
Qed.

(** X3: on every completed computation the velocity and the Reynolds
    number are floats, and the friction factor, the head loss and the
    pressure drop are complex numbers exactly when the Reynolds number is
    negative and finite; otherwise all five values are floats. *)
Theorem X3_complex_results_iff_negative_reynolds (s : scenario) (fl : flow cx) :
  compute s = Ok fl ->
  exists v re,
    flow_V fl = F v /\ flow_Re fl = F re
    /\ is_complex (flow_f fl) = negative_finite re
    /\ is_complex (flow_hf fl) = negative_finite re
    /\ is_complex (flow_delta_P fl) = negative_finite re.
Proof.
  intros E.
  destruct (calculator_compute_inv libm_pow cx s fl E)
    as (sq & v & re & p & v2 & _ & _ & _ & EV & _ & _ & ERe & _ & Ep & Ef & _
        & _ & Ehf & EdP).
  exists v, re. split; [ exact EV | ]. split; [ exact ERe | ].
  assert (Hf : is_complex (flow_f fl) = negative_finite re).
  { destruct (negative_finite re) eqn:N.
    - rewrite (float_pow_quarter_negative re N) in Ep.
      unfold py_complex_pow in Ep.
      destruct (complex_pow cx (to_complex cx (F re)) (to_complex cx (F 0.25)))
        as [z | fault]; [ | discriminate ].
      inversion Ep; subst p. unfold py_truediv in Ef.
      destruct (complex_quot cx (to_complex cx (F 0.3164)) (to_complex cx (C z)));
        [ | discriminate ].
      inversion Ef. reflexivity.
    - destruct (float_pow_quarter_real re p N Ep) as [x ->].
      unfold py_truediv, PyFloat.truediv in Ef.
      destruct (x =? 0);
        [ rewrite bind_raise in Ef; discriminate
        | rewrite bind_ok in Ef; inversion Ef; reflexivity ]. }
  rewrite Ehf in EdP |- *. rewrite EdP.
  destruct (flow_f fl); cbn in Hf |- *; rewrite <- Hf; repeat split; reflexivity.
Qed.

(** X4: the pipe length bears on the head loss and the pressure drop
    only: with another length the computation completes on the same
    inputs, with the same velocity, Reynolds number, friction factor and
    warning, and where it fails it fails with the same exception. *)
Theorem X4_length_only_moves_the_head_loss (s : scenario) (L : float) :
  match compute s, compute (with_L L s) with
  | Ok fl, Ok fl' =>
      flow_V fl' = flow_V fl /\ flow_Re fl' = flow_Re fl
      /\ flow_f fl' = flow_f fl /\ flow_warning fl' = flow_warning fl
  | Raise e, Raise e' => e' = e
  | _, _ => False
  end.
Proof.
  unfold calculator_compute.
  change (velocity libm_pow cx (with_L L s)) with (velocity libm_pow cx s).
  destruct (velocity libm_pow cx s) as [V | e] eqn:EV; repeat bind_step;
    [ | reflexivity ].
  destruct (velocity_inv libm_pow cx s V EV) as (sq & _ & _ & ->).
  change (reynolds cx (with_L L s)) with (reynolds cx s).
  destruct (reynolds cx s (F (in_Q s / (math_pi * sq)))) as [Re | e];
    repeat bind_step; [ | reflexivity ].
  destruct (calculate_friction_factor libm_pow cx Re) as [[f w] | e];
    repeat bind_step; [ | reflexivity ].
  rewrite !head_loss_float.
  change (in_D (with_L L s)) with (in_D s).
  destruct (in_D s =? 0); repeat bind_step; [ reflexivity | ].
  destruct (pow (in_Q s / (math_pi * sq)) 2) as [r2 | e] eqn:E2;
    repeat bind_step; [ | reflexivity ].
  destruct (float_pow_2_float _ _ _ _ E2) as [v2 ->].
  rewrite truediv_2g. repeat bind_step. cbn. repeat split; reflexivity.
Qed.

End EngineBehaviour.

(** X1 at a pipe whose flow rate is [nan]; the C library is not called on
    it. *)
Lemma X1_nan_flow_rate_witness :
  PyFloat.isnan (in_Q unknown_flow_rate) = true
  /\ (forall pw cx, calculator_compute pw cx unknown_flow_rate = Ok (nan_flow cx))
  /\ (forall cx : ComplexRuntime,
        nan_flow cx = nan_flow cx /\ calculator_format cx (nan_flow cx) = Ok nan_block).
Proof.
  assert (R : forall pw cx,
             calculator_compute pw cx unknown_flow_rate = Ok (nan_flow cx))
    by (intros pw cx; vm_compute; reflexivity).
  split; [ reflexivity | ]. split; [ exact R | ].
  intros cx.
  exact (X1_nan_flow_rate_spreads RefLibm.ref_pow cx unknown_flow_rate (nan_flow cx)
           eq_refl (R RefLibm.ref_pow cx)).
Defined.

(** X2 at [Re = -8]. *)
Lemma X2_negative_reynolds_witness :
  negative_finite (-8) = true
  /\ (forall pw cx,
        calculate_friction_factor pw cx (F (-8)%float) =
        match complex_pow cx (complex_of_float cx (-8)) (complex_of_float cx 0.25) with
        | inl z =>
            match complex_quot cx (complex_of_float cx 0.3164) z with
            | Some f => Ok (C f, laminar_warning)
            | None => Raise ZeroDivisionError
            end
        | inr fault => Raise (fault_exn fault)
        end).
Proof.
  split; [ reflexivity | ].
  intros pw cx. exact (X2_negative_reynolds_leaves_the_reals pw cx (-8)%float eq_refl).
Defined.

(** X3 at a laminar unit flow, where every value is a float. *)
Lemma X3_complex_results_witness :
  (forall pw cx,
     calculator_compute pw cx (Examples.unit_flow (-100) 1) = Ok (backwards_flow cx))
  /\ (forall cx : ComplexRuntime, exists v re,
        flow_V (backwards_flow cx) = F v /\ flow_Re (backwards_flow cx) = F re
        /\ is_complex (flow_f (backwards_flow cx)) = negative_finite re
        /\ is_complex (flow_hf (backwards_flow cx)) = negative_finite re
        /\ is_complex (flow_delta_P (backwards_flow cx)) = negative_finite re).
Proof.
  split; [ exact backwards_run | ].
  intros cx.
  exact (X3_complex_results_iff_negative_reynolds RefLibm.ref_pow cx
           (Examples.unit_flow (-100) 1) (backwards_flow cx)
           (backwards_run RefLibm.ref_pow cx)).
Defined.

(** ** The view: what it answers and how it is left *)

Section ViewBehaviour.

Variable libm_pow : float -> float -> float.
Variable cx : ComplexRuntime.

#[local] Abbreviation compute := (calculator_compute libm_pow cx) (only parsing).
#[local] Abbreviation view := (calculator_results libm_pow cx) (only parsing).
#[local] Abbreviation page := (calculator libm_pow cx) (only parsing).

(** Reading the form raises [BadRequestKeyError] or [ValueError] only. *)
Lemma calculator_parse_raises (fm : form) (e : pyexn) :
  calculator_parse fm = Raise e ->
  e = ValueError \/ (e = BadRequestKeyError /\ required_present fm = false).
Proof.
  unfold required_present, form_has, calculator_parse, form_getitem,
    form_get_float, py_float.
  destruct (form_get "L" fm) as [vL | ]; bind_step;
    [ | intros H; inversion H; right; split; reflexivity ].
  destruct (PyText.parse_float vL); bind_step;
    [ | intros H; inversion H; left; reflexivity ].
  destruct (form_get "D" fm) as [vD | ]; bind_step;
    [ | intros H; inversion H; right; split; reflexivity ].
  destruct (PyText.parse_float vD); bind_step;
    [ | intros H; inversion H; left; reflexivity ].
  destruct (form_get "Q" fm) as [vQ | ]; bind_step;
    [ | intros H; inversion H; right; split; reflexivity ].
  destruct (PyText.parse_float vQ); bind_step;
    [ | intros H; inversion H; left; reflexivity ].
  destruct (form_get "rho" fm) as [vr | ];
    [ destruct (PyText.parse_float vr) | ]; bind_step;
    try (intros H; inversion H; left; reflexivity);
    (destruct (form_get "mu" fm) as [vm | ];
     [ destruct (PyText.parse_float vm) | ]; bind_step;
     try (intros H; inversion H; left; reflexivity); discriminate).
Qed.

(** The display strings are made unless the pressure drop is a complex
    number that cannot be divided. *)
Lemma calculator_format_arithmetic (fl : flow cx) :
  arithmetic (calculator_format cx fl).
Proof.
  unfold calculator_format.
  apply arithmetic_bind; [ apply arithmetic_truediv | intros kPa _; exact I ].
Qed.

(** What follows a form that reads well raises nothing but the two faults
    of the arithmetic. *)
Lemma after_parse_arithmetic (s : scenario) :
  arithmetic (fl <- compute s ;; calculator_format cx fl).
Proof.
  apply arithmetic_bind; [ apply calculator_compute_arithmetic | intros fl _ ].
  apply calculator_format_arithmetic.
Qed.

(** The error block is the answer to a [ValueError] of the reading. *)
Lemma error_block_inv (fm : form) (error : string) :
  view POST fm = Ok (Some (ErrorBlock error)) ->
  calculator_parse fm = Raise ValueError /\ error = parse_error_message.
Proof.
  unfold calculator_results.
  destruct (calculator_parse fm) as [s | e]; bind_step.
  - pose proof (after_parse_arithmetic s) as A.
    destruct (fl <- compute s ;; calculator_format cx fl) as [r | e] eqn:R.
    + unfold calculator_format in R.
      destruct (compute s) as [fl | e]; [ | discriminate R ].
      rewrite bind_ok in R.
      destruct (py_truediv cx (flow_delta_P fl) (F 1000)); [ | discriminate R ].
      rewrite bind_ok in R. inversion R. discriminate.
    + destruct e; cbn in A; try contradiction; discriminate.
  - destruct e; try discriminate. intros H. inversion H. split; reflexivity.
Qed.

(** The exception that leaves the view, and where it was raised. *)
Lemma post_raise_inv (fm : form) (e : pyexn) :
  page POST fm = Raise e ->
  (e = BadRequestKeyError /\ calculator_parse fm = Raise BadRequestKeyError)
  \/ ((e = ZeroDivisionError \/ e = OverflowError)
      /\ exists s, calculator_parse fm = Ok s).
Proof.
  unfold calculator, calculator_results.
  destruct (calculator_parse fm) as [s | e0] eqn:P; bind_step.
  - pose proof (after_parse_arithmetic s) as A.
    destruct (fl <- compute s ;; calculator_format cx fl) as [r | e1];
      [ bind_step; discriminate | ].
    destruct e1; cbn in A; try contradiction; bind_step; intros H; inversion H;
      right; (split; [ auto | exists s; reflexivity ]).
  - destruct (calculator_parse_raises fm e0 P) as [-> | [-> M]]; bind_step;
      [ discriminate | ].
    intros H. inversion H. left. split; reflexivity.
Qed.

(** X5: the view answers a submission with the message "Please enter
    valid numbers." exactly when reading the form raised [ValueError]; no
    fault of the arithmetic is ever turned into that message, and no other
    error text is ever produced. *)
Theorem X5_error_message_iff_value_error (fm : form) (error : string) :
  view POST fm = Ok (Some (ErrorBlock error))
  <-> calculator_parse fm = Raise ValueError /\ error = parse_error_message.
Proof.
  split; [ apply error_block_inv | ].
  intros [P ->]. apply (calculator_on_value_error libm_pow cx fm P).
Qed.

(** X6: an exception leaves [calculator] on a POST in two ways only:
    [BadRequestKeyError], and then one of [L], [D], [Q] is missing from
    the form; or [ZeroDivisionError] or [OverflowError], and then the form
    was read in full.  Neither [ValueError] nor [TypeError] leaves it. *)
Theorem X6_post_leaves_by_three_exceptions (fm : form) (e : pyexn) :
  page POST fm = Raise e ->
  (e = BadRequestKeyError /\ required_present fm = false)
  \/ ((e = ZeroDivisionError \/ e = OverflowError)
      /\ exists s, calculator_parse fm = Ok s).
Proof.
  intros H. destruct (post_raise_inv fm e H) as [[-> P] | R]; [ left | right; exact R ].
  split; [ reflexivity | ].
  destruct (calculator_parse_raises fm _ P) as [N | [_ M]];
    [ discriminate N | exact M ].
Qed.

(** X7: a POST is left by [BadRequestKeyError] exactly when [L] is
    missing, or [L] is a number and [D] is missing, or [L] and [D] are
    numbers and [Q] is missing; a missing [rho] or [mu] never raises it. *)
Theorem X7_bad_request_iff_first_missing (fm : form) :
  page POST fm = Raise BadRequestKeyError
  <-> form_has "L" fm = false
      \/ (field_unparsable "L" fm = false /\ form_has "D" fm = false)
      \/ (field_unparsable "L" fm = false /\ field_unparsable "D" fm = false
          /\ form_has "Q" fm = false).
Proof.
  assert (V : page POST fm = Raise BadRequestKeyError
              <-> calculator_parse fm = Raise BadRequestKeyError).
  { split.
    - intros H. destruct (post_raise_inv fm _ H) as [[_ P] | [[N | N] _]];
        [ exact P | discriminate N | discriminate N ].
    - intros P. unfold calculator, calculator_results. rewrite P. reflexivity. }
  rewrite V. clear V.
  unfold form_has, field_unparsable, calculator_parse, form_getitem,
    form_get_float, py_float.
  destruct (form_get "L" fm) as [vL | ]; bind_step; [ | tauto ].
  destruct (PyText.parse_float vL); bind_step;
    [ | split; [ discriminate | intuition discriminate ] ].
  destruct (form_get "D" fm) as [vD | ]; bind_step; [ | tauto ].
  destruct (PyText.parse_float vD); bind_step;
    [ | split; [ discriminate | intuition discriminate ] ].
  destruct (form_get "Q" fm) as [vQ | ]; bind_step; [ | tauto ].
  split; [ | intuition discriminate ].
  destruct (PyText.parse_float vQ); bind_step; [ | discriminate ].
  destruct (form_get "rho" fm) as [vr | ];
    [ destruct (PyText.parse_float vr) | ]; bind_step; try discriminate;
    (destruct (form_get "mu" fm) as [vm | ];
     [ destruct (PyText.parse_float vm) | ]; bind_step; discriminate).
Qed.

Lemma same_value_eq (a b : option string) : same_value a b = true -> a = b.
Proof.
  destruct a as [x | ], b as [y | ]; cbn; try discriminate; try reflexivity.
  intros H. apply String.eqb_eq in H. congruence.
Qed.

(** X8: the page depends on the submission only through the first value
    of each of [L], [D], [Q], [rho] and [mu]: two submissions that agree on
    these (or lack the same ones) are answered alike, whatever other
    fields, later duplicates or order they have. *)
Theorem X8_only_first_values_are_read (method : http_method) (fm fm' : form) :
  same_fields fm fm' = true ->
  page method fm' = page method fm.
Proof.
  unfold same_fields, read_keys, forallb. cbv beta. intros H.
  apply andb_true_iff in H. destruct H as [HL H].
  apply andb_true_iff in H. destruct H as [HD H].
  apply andb_true_iff in H. destruct H as [HQ H].
  apply andb_true_iff in H. destruct H as [Hrho H].
  apply andb_true_iff in H. destruct H as [Hmu _].
  apply same_value_eq in HL, HD, HQ, Hrho, Hmu.
  assert (P : calculator_parse fm' = calculator_parse fm).
  { unfold calculator_parse, form_getitem, form_get_float.
    rewrite HL, HD, HQ, Hrho, Hmu. reflexivity. }
  unfold calculator, calculator_results. rewrite P. reflexivity.
Qed.

(** X9: below the form a GET shows nothing; a POST that returns shows
    either the error alert alone, or five result lines followed by at most
    one warning alert, which is then the laminar one.  Results and error
    alert never appear together, and a POST never shows nothing. *)
Theorem X9_results_area_shape (method : http_method) (fm : form) (p : list element) :
  page method fm = Ok p ->
  match method with
  | GET => p = []
  | POST =>
      p = [AlertDanger parse_error_message]
      \/ exists lines,
           length lines = 5%nat /\ forallb is_result_line lines = true
           /\ (p = lines \/ p = lines ++ [AlertWarning laminar_warning])
  end.
Proof.
  destruct method; [ intros H; inversion H; reflexivity | ].
  unfold calculator.
  destruct (view POST fm) as [[r | ] | e] eqn:R; bind_step; try discriminate.
  - destruct r as [V Re f hf dP w | error].
    + apply calculator_results_block in R.
      destruct R as (s & fl & kPa & _ & E & _ & _ & _ & _ & _ & _ & ->).
      destruct (calculator_compute_inv libm_pow cx s fl E)
        as (sq & v & re & q & v2 & _ & _ & _ & _ & _ & _ & _ & W & _).
      intros H. inversion H. right.
      eexists. split; [ | split; [ | rewrite W; destruct (re <? 2100)%float ] ].
      3: right; reflexivity. 3: left; apply app_nil_r.
      all: reflexivity.
    + destruct (error_block_inv fm error R) as [_ ->].
      intros H. inversion H. left. reflexivity.
  - unfold calculator_results in R.
    destruct (s <- calculator_parse fm ;; fl <- compute s ;; calculator_format cx fl)
      as [r | []]; discriminate.
Qed.

End ViewBehaviour.

(** X6 at a submission without [L]. *)
Lemma X6_post_leaves_witness :
  (forall pw cx, calculator pw cx POST no_length_form = Raise BadRequestKeyError)
  /\ (forall (pw : float -> float -> float) (cx : ComplexRuntime),
        (BadRequestKeyError = BadRequestKeyError
         /\ required_present no_length_form = false)
        \/ ((BadRequestKeyError = ZeroDivisionError
             \/ BadRequestKeyError = OverflowError)
            /\ exists s, calculator_parse no_length_form = Ok s)).
Proof.
  split; [ intros pw cx; reflexivity | ].
  intros pw cx.
  exact (X6_post_leaves_by_three_exceptions pw cx no_length_form
           BadRequestKeyError eq_refl).
Defined.

(** X8 at the preset submission and the same with a field more and a
    second, unreadable, value for [L]. *)
Lemma X8_only_first_values_witness :
  same_fields preset_form crowded_form = true
  /\ (forall pw cx,
        calculator pw cx POST crowded_form = calculator pw cx POST preset_form).
Proof.
  split; [ reflexivity | ].
  intros pw cx.
  exact (X8_only_first_values_are_read pw cx POST preset_form crowded_form eq_refl).
Defined.

(** X9 at a laminar unit flow of mercury: five lines and the warning. *)
Lemma X9_results_area_witness :
  (forall pw cx,
     calculator pw cx POST mercury_form
     = Ok (result_box "1.000 m/s" "1" "0.3164" "0.806 m" "107576 Pa (107.58 kPa)"
             laminar_warning))
  /\ (forall (pw : float -> float -> float) (cx : ComplexRuntime),
        result_box "1.000 m/s" "1" "0.3164" "0.806 m" "107576 Pa (107.58 kPa)"
          laminar_warning
        = [AlertDanger parse_error_message]
        \/ exists lines,
             length lines = 5%nat /\ forallb is_result_line lines = true
             /\ (result_box "1.000 m/s" "1" "0.3164" "0.806 m"
                   "107576 Pa (107.58 kPa)" laminar_warning = lines
                 \/ result_box "1.000 m/s" "1" "0.3164" "0.806 m"
                      "107576 Pa (107.58 kPa)" laminar_warning
                    = lines ++ [AlertWarning laminar_warning])).
Proof.
  assert (R : forall pw cx,
             calculator pw cx POST mercury_form
             = Ok (result_box "1.000 m/s" "1" "0.3164" "0.806 m"
                     "107576 Pa (107.58 kPa)" laminar_warning))
    by (intros pw cx; vm_compute; reflexivity).
  split; [ exact R | ].
  intros pw cx.
  exact (X9_results_area_shape pw cx POST mercury_form _ (R pw cx)).
Defined.

(** ** The text read and the text written *)

Module DisplayFacts.

Import PyText.

(** The digits before the point and the [p] digits after it. *)
Lemma fixed_shape (p : nat) (n : Z) :
  exists whole decimals,
    fixed p n = whole ++ match p with O => [] | S _ => "."%char :: decimals end
    /\ is_digits whole = true /\ (1 <= length whole)%nat
    /\ is_digits decimals = true /\ length decimals = p.
Proof.
  unfold fixed. destruct (TextFacts.padded_digits p n) as (D & L & _).
  cbv zeta in D, L.
  set (ds := repeat "0"%char (S p - length (digits_of n)) ++ digits_of n) in *.
  destruct p as [ | p].
  - exists ds, []. rewrite app_nil_r. repeat split; auto.
  - destruct (TextFacts.is_digits_split (length ds - S p) ds D) as [D1 D2].
    exists (firstn (length ds - S p) ds), (skipn (length ds - S p) ds).
    split; [ reflexivity | ]. split; [ exact D1 | ].
    split; [ rewrite length_firstn; lia | ].
    split; [ exact D2 | rewrite length_skipn; lia ].
Qed.

Lemma lstrip_blanks (before l : list ascii) :
  forallb is_space before = true -> lstrip (before ++ l) = lstrip l.
Proof.
  induction before as [ | c t IH]; [ reflexivity | ].
  cbn [forallb app lstrip]. intros H. apply andb_prop in H. destruct H as [Hc Ht].
  rewrite Hc. apply IH, Ht.
Qed.

Lemma lstrip_app (l after : list ascii) :
  lstrip (l ++ after) =
  match lstrip l with
  | [] => lstrip after
  | c :: t => (c :: t) ++ after
  end.
Proof.
  induction l as [ | c t IH]; cbn [app lstrip].
  - destruct (lstrip after); reflexivity.
  - destruct (is_space c); [ exact IH | reflexivity ].
Qed.

Lemma strip_blanks (before l after : list ascii) :
  forallb is_space before = true -> forallb is_space after = true ->
  strip (before ++ l ++ after) = strip l.
Proof.
  intros B A. unfold strip. rewrite (lstrip_blanks before _ B), lstrip_app.
  assert (E : lstrip after = []).
  { rewrite <- (app_nil_r after). rewrite (lstrip_blanks after [] A). reflexivity. }
  destruct (lstrip l) as [ | c t]; [ rewrite E; reflexivity | ].
  rewrite rev_app_distr. rewrite lstrip_blanks; [ reflexivity | ].
  rewrite TextFacts.forallb_rev. exact A.
Qed.

End DisplayFacts.

(** X10: [float] accepts whatever [format(x, '.pf')] writes, so no
    displayed number is refused when it is submitted again: the display of
    [nan], of an infinity or of a zero reads back as [x] itself, sign
    included, and the display of a finite [x = m * 2^e] is a decimal
    [n / 10^p] at most half a unit of its last digit away from [x], which
    reads back as the float nearest to that decimal. *)
Theorem X10_every_display_reads_back (p : nat) (x : float) :
  exists y,
    py_float (PyText.format_f p x) = Ok y
    /\ match Prim2SF x with
       | S754_finite sgn m e =>
           exists n,
             PyText.format_f p x
             = string_of_list_ascii (PyText.sign_of sgn ++ PyText.fixed p n)
             /\ y = PyText.decimal_to_float sgn n (0 - Z.of_nat p)
             /\ (0 <= e -> n = Z.pos m * 10 ^ Z.of_nat p * 2 ^ e)
             /\ (e < 0 ->
                 Z.abs (2 * (Z.pos m * 10 ^ Z.of_nat p - n * 2 ^ (- e)))
                 <= 2 ^ (- e))
       | _ => y = x
       end.
Proof.
  pose proof (TextFacts.parse_format_f p x) as R. unfold py_float.
  destruct (Prim2SF x) as [s | s | | s m e] eqn:E;
    try (exists x; rewrite R; split; reflexivity).
  eexists. rewrite R. split; [ reflexivity | ].
  exists (PyText.round_half_even (Z.pos m * 10 ^ Z.of_nat p) e).
  split; [ unfold PyText.format_f; rewrite E; reflexivity | ].
  split; [ reflexivity | ].
  split; [ apply TextFacts.round_half_even_exact
         | apply TextFacts.round_half_even_nearest ].
Qed.

(** X11: the "{:.pf}" display of a float is "nan", "inf" or "-inf", or
    else a minus sign when the sign bit is set, one digit or more, and,
    when [p] is not zero, a point followed by exactly [p] digits: the
    velocity and the head loss always show three decimals, the friction
    factor four, the kilopascals two. *)
Theorem X11_display_has_p_decimals (p : nat) (x : float) :
  match Prim2SF x with
  | S754_nan => PyText.format_f p x = "nan"%string
  | S754_infinity s => PyText.format_f p x = if s then "-inf"%string else "inf"%string
  | S754_zero s | S754_finite s _ _ =>
      exists whole decimals,
        PyText.format_f p x
        = string_of_list_ascii
            (PyText.sign_of s ++ whole
             ++ match p with O => [] | S _ => "."%char :: decimals end)
        /\ is_digits whole = true /\ (1 <= length whole)%nat
        /\ is_digits decimals = true /\ length decimals = p
  end.
Proof.
  unfold PyText.format_f.
  destruct (Prim2SF x) as [s | s | | s m e]; try reflexivity.
  - destruct (DisplayFacts.fixed_shape p 0) as (w & d & -> & H).
    exists w, d. split; [ reflexivity | exact H ].
  - destruct (DisplayFacts.fixed_shape p
                (PyText.round_half_even (Z.pos m * 10 ^ Z.of_nat p) e))
      as (w & d & -> & H).
    exists w, d. split; [ reflexivity | exact H ].
Qed.

(** X12: [float] ignores the white space around a field: a value read
    between two runs of blanks (space, tab, line feed, vertical tab, form
    feed, carriage return, U+0085, U+00A0) is read as the value alone, and
    a field made of blanks only is refused like the empty one. *)
Theorem X12_float_strips_blanks (before after : list ascii) (s : string) :
  forallb PyText.is_space before = true ->
  forallb PyText.is_space after = true ->
  py_float (padded before s after) = py_float s
  /\ py_float (padded before EmptyString after) = Raise ValueError.
Proof.
  intros B A.
  assert (P : forall t, py_float (padded before t after) = py_float t).
  { intros t. unfold py_float, PyText.parse_float, padded.
    rewrite list_ascii_of_string_of_list_ascii.
    rewrite (DisplayFacts.strip_blanks before _ after B A). reflexivity. }
  split; [ apply P | rewrite P; reflexivity ].
Qed.

(** X12 at "100" after a space and before a tab and a line feed. *)
Lemma X12_float_strips_blanks_witness :
  forallb PyText.is_space [" "%char] = true
  /\ forallb PyText.is_space ["009"%char; "010"%char] = true
  /\ py_float (padded [" "%char] "100" ["009"%char; "010"%char]) = py_float "100"
  /\ py_float (padded [" "%char] EmptyString ["009"%char; "010"%char])
     = Raise ValueError.
Proof.
  split; [ reflexivity | ]. split; [ reflexivity | ].
  exact (X12_float_strips_blanks [" "%char] ["009"%char; "010"%char] "100"
           eq_refl eq_refl).
Defined.
